(** * Inoreader MCP server: the authenticated API client

    A shallow embedding of [src/client.ts] (the [InoreaderClient] class),
    of the parts of [src/auth.ts] and [src/keychain.ts] it calls, and of
    the tool handlers of [src/index.ts] that sit on top of it.

    Conventions of the embedding.
    - JavaScript strings are [string]s; [String.length] stands for the
      [length] property and [substring 0 n] for [slice(0, n)].
    - JavaScript numbers that the program uses as integers (HTTP status,
      counts, millisecond timestamps) are [Z].
    - An optional value ([x?: T], [T | undefined], [T | null]) is an
      [option]; JavaScript truthiness of an optional string is [truthy].
    - Objects decoded from JSON are cast unchecked by the sources
      ([as TokenResponse], [as TokenData]), so a field declared [string]
      or [number] may be [undefined] at run time. The access token and
      the lifetime of a token answer are therefore [option]s, and so is
      every place an access token flows to.
    - The secret store holds the token pair itself: [JSON.stringify]
      followed by [JSON.parse] is taken to give the pair back. A URL is
      kept as its text and its search parameters.
    - [async] code is sequential here: every [await] is a plain call.
      Effects on the outside world (HTTP calls, the secret store, the
      clock) go through an environment [Env] of oracles and are recorded
      in [trace]; exceptions are the [Throw] results of the monad [M]. *)

From Stdlib Require Import String Ascii ZArith List Bool Lia DecimalString.
From Equations Require Import Equations.
Import ListNotations.

Set Warnings "-register-all".

Local Open Scope string_scope.
Local Open Scope Z_scope.

(** ** JavaScript primitives used by the sources *)

(** Truthiness of a string: every string but the empty one. *)
Definition truthy_string (s : string) : bool := negb (s =? EmptyString)%string.

(** Truthiness of an optional string: [undefined] and the empty string are falsy. *)
Definition truthy (o : option string) : bool :=
  match o with
  | Some s => truthy_string s
  | None => false
  end.

(** [a ?? b] *)
Definition nullish {A : Type} (a : option A) (b : A) : A :=
  match a with
  | Some x => x
  | None => b
  end.

(** [a || b] where [a] is an optional string and [b] a string. *)
Definition or_else (a : option string) (b : string) : string :=
  match a with
  | Some x => if truthy_string x then x else b
  | None => b
  end.

(** [`${x}`] for a string that may be [undefined]. *)
Definition interpolate (o : option string) : string := nullish o "undefined".

(** [String(n)] for an integral number. *)
Definition String_of_Z (z : Z) : string :=
  NilZero.string_of_int (Z.to_int z).

(** [hay.includes(needle)] on strings. *)
Fixpoint includes (needle hay : string) : bool :=
  prefix needle hay ||
  match hay with
  | EmptyString => false
  | String _ rest => includes needle rest
  end.

(** [xs.includes(x)] on arrays of strings (strict equality). *)
Definition array_includes (x : string) (xs : list string) : bool :=
  existsb (String.eqb x) xs.

(** [Math.min] on integral numbers. *)
Definition Math_min (a b : Z) : Z := Z.min a b.

(** [encodeURIComponent]: the unreserved characters are kept, every other
    one becomes [%XX].  Strings are taken to hold single-byte
    characters. *)
Definition unreserved (c : ascii) : bool :=
  let n := Z.of_nat (nat_of_ascii c) in
  ((65 <=? n) && (n <=? 90)) || ((97 <=? n) && (n <=? 122)) ||
  ((48 <=? n) && (n <=? 57)) ||
  existsb (Ascii.eqb c) (list_ascii_of_string "-_.!~*'()").

Definition hex_digit (n : nat) : ascii :=
  match String.get n "0123456789ABCDEF" with
  | Some c => c
  | None => "0"%char
  end.

Fixpoint encodeURIComponent (s : string) : string :=
  match s with
  | EmptyString => EmptyString
  | String c rest =>
      if unreserved c then String c (encodeURIComponent rest)
      else
        let n := nat_of_ascii c in
        String "%" (String (hex_digit (Nat.div n 16))
                      (String (hex_digit (Nat.modulo n 16))
                         (encodeURIComponent rest)))
  end.

(** A string-keyed object literal / [URLSearchParams]: pairs in insertion
    order.  [params_set] is [searchParams.set] and property assignment:
    it overwrites the first entry of the key and drops later ones, or
    appends. *)
Definition Pairs : Type := list (string * string).

Fixpoint params_remove (k : string) (l : Pairs) : Pairs :=
  match l with
  | [] => []
  | (k', v') :: rest =>
      if (k =? k')%string then params_remove k rest
      else (k', v') :: params_remove k rest
  end.

Fixpoint params_set (k v : string) (l : Pairs) : Pairs :=
  match l with
  | [] => [(k, v)]
  | (k', v') :: rest =>
      if (k =? k')%string then (k, v) :: params_remove k rest
      else (k', v') :: params_set k v rest
  end.

(** [params_append] is [URLSearchParams.append]: repeated keys are kept. *)
Definition params_append (k v : string) (l : Pairs) : Pairs :=
  (l ++ [(k, v)])%list.

Fixpoint params_lookup (k : string) (l : Pairs) : option string :=
  match l with
  | [] => None
  | (k', v') :: rest => if (k =? k')%string then Some v' else params_lookup k rest
  end.

(** ** Errors ([src/errors.ts]) *)

Inductive ErrorClass : Type :=
| ClsError                 (* the built-in [Error] *)
| ClsTypeError             (* a rejected [fetch], a property of [undefined] *)
| ClsSyntaxError           (* [response.json()] on an undecodable body *)
| ClsShellError            (* Bun's error for a failed [$] command *)
| ClsInoreaderClientError
| ClsAuthenticationError.  (* extends [InoreaderClientError] *)

Record Exn : Type := mkExn { cls : ErrorClass; message : string }.

Definition InoreaderClientError (msg : string) : Exn :=
  mkExn ClsInoreaderClientError msg.

Definition AuthenticationError (msg : string) : Exn :=
  mkExn ClsAuthenticationError msg.

Definition error_name (c : ErrorClass) : string :=
  match c with
  | ClsError => "Error"
  | ClsTypeError => "TypeError"
  | ClsSyntaxError => "SyntaxError"
  | ClsShellError => "ShellError"
  | ClsInoreaderClientError => "InoreaderClientError"
  | ClsAuthenticationError => "AuthenticationError"
  end.

(** [e instanceof InoreaderClientError] *)
Definition is_client_error (e : Exn) : bool :=
  match cls e with
  | ClsInoreaderClientError | ClsAuthenticationError => true
  | _ => false
  end.

(** [String(e)] for an error object. *)
Definition String_of_Exn (e : Exn) : string :=
  error_name (cls e) ++ ": " ++ message e.

(** ** Data ([src/types.ts], [TokenData], [TokenResponse]) *)

Inductive Json : Type :=
| JNull
| JBool (b : bool)
| JNumber (n : Z)
| JString (s : string)
| JArray (items : list Json)
| JObject (fields : list (string * Json)).

(** [TokenData] of [keychain.ts]: the persisted token pair. A pair
    written without an access token has none when it is read back. The
    program only tests the refresh token for truthiness before it uses
    it, so a missing one is the empty string; a missing, [null] or [NaN]
    expiry is [None]. *)
Record TokenData : Type := mkTokenData {
  accessToken_of : option string;
  refreshToken_of : string;
  expiresAt_of : option Z
}.

(** [TokenResponse] of [auth.ts], as decoded from the token endpoint.
    The upstream may leave [refresh_token] out; [refreshAccessToken]
    returns the decoded answer without checking it, so the other fields
    may be missing as well. *)
Record TokenResponse : Type := mkTokenResponse {
  access_token : option string;
  refresh_token : option string;
  expires_in : option Z;
  token_type : option string
}.

(** [Date.now() + expires_in * 1000]. Without [expires_in] the sum is
    [NaN], which the store keeps as [null]. *)
Definition expiry_at (t : Z) (expires_in : option Z) : option Z :=
  match expires_in with
  | Some e => Some (t + e * 1000)
  | None => None
  end.

Record Config : Type := mkConfig {
  appId : string;
  appKey : string;
  config_accessToken : option string;
  config_refreshToken : option string;
  apiBaseUrl : string;
  oauthBaseUrl : string
}.

(** ** HTTP *)

Record HttpRequest : Type := mkHttpRequest {
  req_method : string;
  req_url : string;             (* base URL followed by the endpoint *)
  req_search : Pairs;           (* [url.searchParams] *)
  req_headers : Pairs;
  req_body : option Pairs       (* the form fields of the encoded body *)
}.

(** What the client reads from a [Response]. [body_json] is what
    [response.json()] resolves to, [None] when it rejects. *)
Record Response : Type := mkResponse {
  status : Z;
  statusText : string;
  content_type : option string;  (* [headers.get("content-type")] *)
  body_text : string;
  body_json : option Json
}.

(** [response.ok] *)
Definition ok (r : Response) : bool :=
  (200 <=? status r) && (status r <=? 299).

(** The answer of the OAuth token endpoint. [token_json] is what
    [response.json()] resolves to, [None] when it rejects. *)
Record TokenEndpointResponse : Type := mkTokenEndpointResponse {
  token_ok : bool;
  token_text : string;
  token_json : option TokenResponse
}.

(** ** The outside world *)

Inductive Platform : Type :=
| Darwin
| Linux
| OtherPlatform (name : string).

Inductive ShellCommand : Type :=
| SecurityDelete | SecurityAdd | SecurityFind
| SecretToolStore | SecretToolLookup | SecretToolClear.

(** Observable effects, oldest first. *)
Inductive Event : Type :=
| EvFetch (req : HttpRequest)        (* a call of the REST API *)
| EvTokenRequest (form : Pairs)      (* a call of the OAuth token endpoint *)
| EvLoadTokens
| EvSaveTokens (t : TokenData).

(** The behaviour of everything outside the program. Each oracle sees the
    effects performed so far, so successive calls may be answered
    differently. [None] from [api] or [oauth] is a rejected [fetch]. *)
Record Env : Type := mkEnv {
  platform : Platform;
  INOREADER_APP_ID : option string;
  INOREADER_APP_KEY : option string;
  INOREADER_ACCESS_TOKEN : option string;
  INOREADER_REFRESH_TOKEN : option string;
  INOREADER_API_BASE_URL : option string;
  INOREADER_OAUTH_BASE_URL : option string;
  api : list Event -> HttpRequest -> option Response;
  oauth : list Event -> Pairs -> option TokenEndpointResponse;
  shell_ok : list Event -> ShellCommand -> bool;
  Date_now : list Event -> Z
}.

Record World : Type := mkWorld {
  trace : list Event;
  keychain : option TokenData      (* the secret stored under "tokens" *)
}.

Definition log (e : Event) (w : World) : World :=
  mkWorld (trace w ++ [e])%list (keychain w).

Definition set_keychain (k : option TokenData) (w : World) : World :=
  mkWorld (trace w) k.

(** ** The client object and the state of a method call *)

Record InoreaderClient : Type := mkClient {
  config : Config;
  accessToken : option string;
  hasRetriedAuth : bool
}.

Definition set_accessToken (t : option string) (c : InoreaderClient) : InoreaderClient :=
  mkClient (config c) t (hasRetriedAuth c).

Definition set_hasRetriedAuth (b : bool) (c : InoreaderClient) : InoreaderClient :=
  mkClient (config c) (accessToken c) b.

(** [new InoreaderClient(config, accessToken)] *)
Definition new_InoreaderClient (cfg : Config) (tok : option string) : InoreaderClient :=
  mkClient cfg tok false.

Record Session : Type := mkSession {
  this : InoreaderClient;
  world : World
}.

(** ** A state-and-exception monad *)

Inductive Result (A : Type) : Type :=
| Ok (a : A)
| Throw (e : Exn).

Arguments Ok {A} a.
Arguments Throw {A} e.

Definition M (S A : Type) : Type := S -> Result A * S.

Definition ret {S A : Type} (a : A) : M S A := fun s => (Ok a, s).

Definition throw {S A : Type} (e : Exn) : M S A := fun s => (Throw e, s).

Definition bind {S A B : Type} (m : M S A) (k : A -> M S B) : M S B :=
  fun s =>
    match m s with
    | (Ok a, s') => k a s'
    | (Throw e, s') => (Throw e, s')
    end.

(** [try { m } catch (e) { h e }]: the state changes made before the
    throw stay. *)
Definition try_catch {S A : Type} (m : M S A) (h : Exn -> M S A) : M S A :=
  fun s =>
    match m s with
    | (Ok a, s') => (Ok a, s')
    | (Throw e, s') => h e s'
    end.

Declare Scope monad_scope.
Delimit Scope monad_scope with monad.

Notation "x <- m ;; k" := (bind m (fun x => k))
  (at level 61, m at next level, right associativity) : monad_scope.
Notation "m ;;; k" := (bind m (fun _ => k))
  (at level 61, right associativity) : monad_scope.

Local Open Scope monad_scope.

(** A computation on the world, run from inside a method. *)
Definition liftW {A : Type} (m : M World A) : M Session A :=
  fun s =>
    let (r, w') := m (world s) in (r, mkSession (this s) w').

(** A statement that updates [this]. *)
Definition update_this (f : InoreaderClient -> InoreaderClient) : M Session unit :=
  fun s => (Ok tt, mkSession (f (this s)) (world s)).

Definition get_this : M Session InoreaderClient :=
  fun s => (Ok (this s), s).

(** Case analysis on a scrutinee that has no [match] inside it. *)
Ltac destruct_innermost :=
  match goal with
  | |- context [match ?x with _ => _ end] =>
      lazymatch x with
      | context [match _ with _ => _ end] => fail
      | _ => destruct x eqn:?
      end
  end.

(** Case analysis on every condition of a hypothesis. *)
Ltac split_conditions H :=
  repeat match type of H with
         | context [if ?c then _ else _] => revert H; destruct c; intro H
         end.

(** [inspect] keeps the equation of a scrutinee for a termination proof. *)
Definition inspect {A : Type} (a : A) : {b : A | a = b} := exist _ a eq_refl.

(** ** The program, in an environment [E] *)

Section Program.

Variable E : Env.

(** *** [src/keychain.ts] *)

(** A [$] shell command: it succeeds or throws. *)
Definition shell (cmd : ShellCommand) : M World unit :=
  fun w =>
    if shell_ok E (trace w) cmd then (Ok tt, w)
    else (Throw (mkExn ClsShellError "Failed with exit code 1"), w).

Definition macOSSet (data : TokenData) : M World unit :=
  try_catch
    (shell SecurityDelete ;;;
     fun w => (Ok tt, set_keychain None w))
    (fun _ => ret tt) ;;;
  shell SecurityAdd ;;;
  fun w => (Ok tt, set_keychain (Some data) w).

Definition macOSGet : M World (option TokenData) :=
  try_catch
    (shell SecurityFind ;;;
     fun w => (Ok (keychain w), w))
    (fun _ => ret None).

Definition linuxSet (data : TokenData) : M World unit :=
  shell SecretToolStore ;;;
  fun w => (Ok tt, set_keychain (Some data) w).

Definition linuxGet : M World (option TokenData) :=
  try_catch
    (shell SecretToolLookup ;;;
     fun w => (Ok (keychain w), w))
    (fun _ => ret None).

Definition saveTokens (tokens : TokenData) : M World unit :=
  (fun w => (Ok tt, log (EvSaveTokens tokens) w)) ;;;
  match platform E with
  | Darwin => macOSSet tokens
  | Linux => linuxSet tokens
  | OtherPlatform name =>
      throw (mkExn ClsError
               ("Unsupported platform: " ++ name ++
                ". Use environment variables instead."))
  end.

Definition loadTokens : M World (option TokenData) :=
  (fun w => (Ok tt, log EvLoadTokens w)) ;;;
  match platform E with
  | Darwin => macOSGet
  | Linux => linuxGet
  | OtherPlatform _ => ret None
  end.

(** *** [src/auth.ts] *)

Definition OAUTH_BASE_URL : string := "https://www.inoreader.com/oauth2".

Record AuthConfig : Type := mkAuthConfig {
  auth_appId : string;
  auth_appKey : string
}.

Definition getAuthConfig : M World AuthConfig :=
  if negb (truthy (INOREADER_APP_ID E)) || negb (truthy (INOREADER_APP_KEY E)) then
    throw (mkExn ClsError
             "INOREADER_APP_ID and INOREADER_APP_KEY environment variables are required.
Get your credentials at: https://www.inoreader.com/developers/")
  else
    ret (mkAuthConfig (nullish (INOREADER_APP_ID E) EmptyString)
           (nullish (INOREADER_APP_KEY E) EmptyString)).

Definition refreshAccessToken (refreshToken : string) : M World TokenResponse :=
  cfg <- getAuthConfig ;;
  let form :=
    [("client_id", auth_appId cfg);
     ("client_secret", auth_appKey cfg);
     ("grant_type", "refresh_token");
     ("refresh_token", refreshToken)] in
  response <-
    (fun w =>
       match oauth E (trace w) form with
       | Some r => (Ok r, log (EvTokenRequest form) w)
       | None => (Throw (mkExn ClsTypeError "fetch failed"),
                  log (EvTokenRequest form) w)
       end) ;;
  if negb (token_ok response) then
    throw (mkExn ClsError ("Token refresh failed: " ++ token_text response))
  else
    match token_json response with
    | Some t => ret t
    | None => throw (mkExn ClsSyntaxError "Failed to parse JSON")
    end.

(** [Date.now()] *)
Definition now : M World Z := fun w => (Ok (Date_now E (trace w)), w).

Definition getValidAccessToken : M World (option string) :=
  if truthy (INOREADER_ACCESS_TOKEN E) then
    ret (INOREADER_ACCESS_TOKEN E)
  else
    tokens <- loadTokens ;;
    match tokens with
    | None =>
        throw (mkExn ClsError
                 "Not authenticated. Run 'inoreader-mcp auth login' first, or set INOREADER_ACCESS_TOKEN environment variable.")
    | Some tokens =>
        t <- now ;;
        let isExpired :=
          match expiresAt_of tokens with
          | Some e => negb (e =? 0) && (e <? t + 5 * 60 * 1000)
          | None => false
          end in
        if isExpired && truthy_string (refreshToken_of tokens) then
          try_catch
            (newTokens <- refreshAccessToken (refreshToken_of tokens) ;;
             t' <- now ;;
             let expiresAt := expiry_at t' (expires_in newTokens) in
             saveTokens
               (mkTokenData (access_token newTokens)
                  (or_else (refresh_token newTokens) (refreshToken_of tokens))
                  expiresAt) ;;;
             ret (access_token newTokens))
            (fun error =>
               throw (mkExn ClsError
                        ("Failed to refresh token: " ++ String_of_Exn error ++
                         ". Run 'inoreader-mcp auth login' to re-authenticate.")))
        else ret (accessToken_of tokens)
    end.

(** *** [src/client.ts] *)

(** [tryRefreshToken], lines 25-46. *)
Definition tryRefreshToken : M Session bool :=
  try_catch
    (tokens <- liftW loadTokens ;;
     match tokens with
     | None => ret false
     | Some tokens =>
         if negb (truthy_string (refreshToken_of tokens)) then ret false
         else
           newTokens <- liftW (refreshAccessToken (refreshToken_of tokens)) ;;
           t <- liftW now ;;
           let expiresAt := expiry_at t (expires_in newTokens) in
           liftW (saveTokens
                    (mkTokenData (access_token newTokens)
                       (or_else (refresh_token newTokens) (refreshToken_of tokens))
                       expiresAt)) ;;;
           update_this (set_accessToken (access_token newTokens)) ;;;
           ret true
     end)
    (fun _ => ret false).

(** The second argument of [request]: a plain object or a pre-built
    [URLSearchParams]. *)
Inductive Body : Type :=
| BodyRecord (fields : Pairs)
| BodyParams (fields : Pairs).

(** [body.toString()] / [new URLSearchParams(body).toString()], kept as
    the list of form fields it encodes. *)
Definition encode_body (b : Body) : Pairs :=
  match b with
  | BodyRecord fields => fields
  | BodyParams fields => fields
  end.

(** Lines 54-76 of [request]: the URL, the headers and the options. *)
Definition build_request (c : InoreaderClient) (method endpoint : string)
    (params : option Pairs) (body : option Body) : HttpRequest :=
  let search :=
    match params with
    | Some ps => fold_left (fun acc kv => params_set (fst kv) (snd kv) acc) ps []
    | None => []
    end in
  let headers := [("Authorization", "Bearer " ++ interpolate (accessToken c))] in
  match body with
  | Some b =>
      if (method =? "POST")%string then
        mkHttpRequest method (apiBaseUrl (config c) ++ endpoint) search
          (params_set "Content-Type" "application/x-www-form-urlencoded" headers)
          (Some (encode_body b))
      else mkHttpRequest method (apiBaseUrl (config c) ++ endpoint) search headers None
  | None => mkHttpRequest method (apiBaseUrl (config c) ++ endpoint) search headers None
  end.

(** [await fetch(url.toString(), options)] *)
Definition fetch (req : HttpRequest) : M World Response :=
  fun w =>
    match api E (trace w) req with
    | Some r => (Ok r, log (EvFetch req) w)
    | None => (Throw (mkExn ClsTypeError "fetch failed"), log (EvFetch req) w)
    end.

(** What [request<T>] resolves to. *)
Inductive Payload : Type :=
| JsonBody (j : Json)
| Empty                  (* [undefined] *)
| TextBody (s : string).

Definition AUTH_EXPIRED : string :=
  "Authentication failed. Token may be expired. Run 'bun run start auth login' to re-authenticate.".

Definition AUTH_FORBIDDEN : string :=
  "Access forbidden. API access requires Inoreader Pro.".

(** Lines 109-126 of [request]: the result of a successful response. *)
Definition decode_response (response : Response) : M Session Payload :=
  let contentType := nullish (content_type response) EmptyString in
  if includes "application/json" contentType then
    match body_json response with
    | Some j => ret (JsonBody j)
    | None => throw (mkExn ClsSyntaxError "Failed to parse JSON")
    end
  else if (status response =? 204) || (status response =? 205) then ret Empty
  else
    let text := body_text response in
    if negb (truthy_string text) then ret Empty
    else ret (TextBody text).

(** Lines 90-126 of [request]: everything after the retry branch. *)
Definition finish_request (response : Response) : M Session Payload :=
  if status response =? 401 then throw (AuthenticationError AUTH_EXPIRED)
  else if status response =? 403 then throw (AuthenticationError AUTH_FORBIDDEN)
  else if negb (ok response) then
    throw (InoreaderClientError
             ("API request failed: " ++ String_of_Z (status response) ++ " " ++
              statusText response))
  else
    update_this (set_hasRetriedAuth false) ;;;
    decode_response response.

(** How many refresh-and-replay rounds the flag still allows. *)
Definition retry_budget (c : InoreaderClient) : nat :=
  if hasRetriedAuth c then 0%nat else 1%nat.

(** [request], lines 48-127. The only recursive call is the replay of
    line 84, made after [hasRetriedAuth] has been set. *)
Equations? request (method endpoint : string) (params : option Pairs)
    (body : option Body) (s : Session) : Result Payload * Session
    by wf (retry_budget (this s)) lt :=
request method endpoint params body s
  with inspect (liftW (fetch (build_request (this s) method endpoint params body)) s) := {
  | exist _ (Throw e, s1) _ => (Throw e, s1)
  | exist _ (Ok response, s1) Hfetch
      with inspect ((status response =? 401) && negb (hasRetriedAuth (this s1))) := {
      | exist _ false _ => finish_request response s1
      | exist _ true Hretry
          with inspect (tryRefreshToken
                          (mkSession (set_hasRetriedAuth true (this s1)) (world s1))) := {
          | exist _ (Ok true, s2) Hrefresh => request method endpoint params body s2
          | exist _ (Ok false, s2) _ =>
              (Throw (AuthenticationError AUTH_EXPIRED), s2)
          | exist _ (Throw e, s2) _ => (Throw e, s2) } } }.
Proof.
  assert (Hthis : this s1 = this s).
  { unfold liftW in Hfetch. destruct (fetch _ (world s)) as [r w'].
    inversion Hfetch; reflexivity. }
  assert (Hflag : hasRetriedAuth (this s2) = true).
  { revert Hrefresh.
    unfold tryRefreshToken, try_catch, bind, liftW, update_this, ret, now.
    cbn [this world].
    repeat (destruct_innermost; cbn [this world]);
      intro H; inversion H; reflexivity. }
  apply andb_prop in Hretry. destruct Hretry as [_ Hneg].
  rewrite Hthis in Hneg. unfold retry_budget.
  rewrite Hflag. destruct (hasRetriedAuth (this s)); [discriminate | lia].
Qed.

(** [await m;] in a method that returns [Promise<void>]. *)
Definition void {S A : Type} (m : M S A) : M S unit := m ;;; ret tt.

Definition STATE_READ : string := "user/-/state/com.google/read".
Definition STATE_STARRED : string := "user/-/state/com.google/starred".
Definition STATE_READING_LIST : string := "user/-/state/com.google/reading-list".

Definition getUserInfo : M Session Payload :=
  request "GET" "/user-info" None None.

Definition getUnreadCounts : M Session Payload :=
  request "GET" "/unread-count" (Some [("output", "json")]) None.

Definition getSubscriptions : M Session Payload :=
  request "GET" "/subscription/list" (Some [("output", "json")]) None.

Definition getTags : M Session Payload :=
  request "GET" "/tag/list" (Some [("output", "json")]) None.

(** The [options] argument of [getStreamContents]. *)
Record StreamOptions : Type := mkStreamOptions {
  count : option Z;
  continuation : option string;
  excludeTarget : option string;
  includeAllItems : option bool
}.

(** Lines 158-171: the query parameters of a stream page. *)
Definition stream_params (options : StreamOptions) : Pairs :=
  let params :=
    [("output", "json");
     ("n", String_of_Z (Math_min (nullish (count options) 20) 1000))] in
  let params :=
    if truthy (continuation options)
    then params_set "c" (nullish (continuation options) EmptyString) params
    else params in
  let params :=
    if truthy (excludeTarget options)
    then params_set "xt" (nullish (excludeTarget options) EmptyString) params
    else params in
  if nullish (includeAllItems options) false
  then params_set "it" STATE_READ params
  else params.

Definition getStreamContents (streamId : string) (options : StreamOptions)
  : M Session Payload :=
  request "GET" ("/stream/contents/" ++ encodeURIComponent streamId)
    (Some (stream_params options)) None.

(** [count = 20] is a default parameter. *)
Definition getStarredItems (count : option Z) : M Session Payload :=
  getStreamContents STATE_STARRED
    (mkStreamOptions (Some (nullish count 20)) None None (Some true)).

Definition getUnreadItems (count : option Z) : M Session Payload :=
  getStreamContents STATE_READING_LIST
    (mkStreamOptions (Some (nullish count 20)) None (Some STATE_READ) None).

Definition addSubscription (feedUrl : string) (title : option string)
  : M Session Payload :=
  let params := [("quickadd", feedUrl)] in
  let params :=
    if truthy title then params_set "t" (nullish title EmptyString) params else params in
  request "POST" "/subscription/quickadd" (Some params) None.

Definition removeSubscription (subscriptionId : string) : M Session unit :=
  void (request "POST" "/subscription/edit" None
          (Some (BodyRecord [("ac", "unsubscribe"); ("s", subscriptionId)]))).

(** [for (const id of itemIds) body.append("i", id)] *)
Definition append_ids (itemIds : list string) (body : Pairs) : Pairs :=
  fold_left (fun acc id => params_append "i" id acc) itemIds body.

(** [markAsRead], lines 217-236. A number is truthy unless it is 0. *)
Definition markAsRead (itemIds : option (list string)) (streamId : option string)
    (timestamp : option Z) : M Session unit :=
  if match itemIds with
     | Some ids => 0 <? Z.of_nat (List.length ids)
     | None => false
     end
  then
    let body := params_append "a" STATE_READ [] in
    let body := append_ids (nullish itemIds []) body in
    void (request "POST" "/edit-tag" None (Some (BodyParams body)))
  else if truthy streamId then
    let body := [("s", nullish streamId EmptyString)] in
    let body :=
      match timestamp with
      | Some ts => if ts =? 0 then body else params_set "ts" (String_of_Z ts) body
      | None => body
      end in
    void (request "POST" "/mark-all-as-read" None (Some (BodyRecord body)))
  else ret tt.

(** [markAsUnread], lines 238-246. *)
Definition markAsUnread (itemIds : list string) : M Session unit :=
  if (Z.of_nat (List.length itemIds) =? 0) then ret tt
  else
    let body := params_append "r" STATE_READ [] in
    let body := append_ids itemIds body in
    void (request "POST" "/edit-tag" None (Some (BodyParams body))).

Definition addStar (itemId : string) : M Session unit :=
  void (request "POST" "/edit-tag" None
          (Some (BodyRecord [("a", STATE_STARRED); ("i", itemId)]))).

Definition removeStar (itemId : string) : M Session unit :=
  void (request "POST" "/edit-tag" None
          (Some (BodyRecord [("r", STATE_STARRED); ("i", itemId)]))).

Definition addTag (itemId tag : string) : M Session unit :=
  void (request "POST" "/edit-tag" None
          (Some (BodyRecord [("a", tag); ("i", itemId)]))).

Definition removeTag (itemId tag : string) : M Session unit :=
  void (request "POST" "/edit-tag" None
          (Some (BodyRecord [("r", tag); ("i", itemId)]))).

(** The [options] argument of [editSubscription]. *)
Record EditOptions : Type := mkEditOptions {
  title : option string;
  addToFolder : option string;
  removeFromFolder : option string
}.

Definition NO_OPTION : string :=
  "At least one option (title, addToFolder, or removeFromFolder) is required".

Definition SAME_FOLDER : string := "Cannot add and remove from the same folder".

(** Lines 299-317: the form of an edit. *)
Definition edit_body (subscriptionId : string) (options : EditOptions) : Pairs :=
  let body := params_append "ac" "edit" [] in
  let body := params_append "s" subscriptionId body in
  let body :=
    if truthy (title options)
    then params_append "t" (nullish (title options) EmptyString) body
    else body in
  let body :=
    if truthy (addToFolder options)
    then params_append "a"
           ("user/-/label/" ++ encodeURIComponent (nullish (addToFolder options) EmptyString))
           body
    else body in
  if truthy (removeFromFolder options)
  then params_append "r"
         ("user/-/label/" ++ encodeURIComponent (nullish (removeFromFolder options) EmptyString))
         body
  else body.

(** [editSubscription], lines 276-320. *)
Definition editSubscription (subscriptionId : string) (options : EditOptions)
  : M Session unit :=
  if negb (truthy (title options)) && negb (truthy (addToFolder options)) &&
     negb (truthy (removeFromFolder options))
  then throw (InoreaderClientError NO_OPTION)
  else if truthy (addToFolder options) && truthy (removeFromFolder options) &&
          (nullish (addToFolder options) EmptyString =? nullish (removeFromFolder options) EmptyString)%string
  then throw (InoreaderClientError SAME_FOLDER)
  else
    void (request "POST" "/subscription/edit" None
            (Some (BodyParams (edit_body subscriptionId options)))).

(** The typed operations of the client, and a call of one of them. *)
Inductive Operation : Type :=
| GetUserInfo
| GetUnreadCounts
| GetSubscriptions
| GetTags
| GetStreamContents (streamId : string) (options : StreamOptions)
| GetStarredItems (count : option Z)
| GetUnreadItems (count : option Z)
| AddSubscription (feedUrl : string) (title : option string)
| RemoveSubscription (subscriptionId : string)
| MarkAsRead (itemIds : option (list string)) (streamId : option string)
    (timestamp : option Z)
| MarkAsUnread (itemIds : list string)
| AddStar (itemId : string)
| RemoveStar (itemId : string)
| AddTag (itemId tag : string)
| RemoveTag (itemId tag : string)
| EditSubscription (subscriptionId : string) (options : EditOptions).

(** A [Promise<void>] resolves to [undefined]. *)
Definition returns_void (m : M Session unit) : M Session Payload := m ;;; ret Empty.

Definition call (op : Operation) : M Session Payload :=
  match op with
  | GetUserInfo => getUserInfo
  | GetUnreadCounts => getUnreadCounts
  | GetSubscriptions => getSubscriptions
  | GetTags => getTags
  | GetStreamContents streamId options => getStreamContents streamId options
  | GetStarredItems count => getStarredItems count
  | GetUnreadItems count => getUnreadItems count
  | AddSubscription feedUrl title => addSubscription feedUrl title
  | RemoveSubscription subscriptionId => returns_void (removeSubscription subscriptionId)
  | MarkAsRead itemIds streamId timestamp =>
      returns_void (markAsRead itemIds streamId timestamp)
  | MarkAsUnread itemIds => returns_void (markAsUnread itemIds)
  | AddStar itemId => returns_void (addStar itemId)
  | RemoveStar itemId => returns_void (removeStar itemId)
  | AddTag itemId tag => returns_void (addTag itemId tag)
  | RemoveTag itemId tag => returns_void (removeTag itemId tag)
  | EditSubscription subscriptionId options =>
      returns_void (editSubscription subscriptionId options)
  end.

(** [createClient], lines 323-340. *)
Definition createClient : M World InoreaderClient :=
  accessToken <- getValidAccessToken ;;
  let config :=
    mkConfig (nullish (INOREADER_APP_ID E) EmptyString) (nullish (INOREADER_APP_KEY E) EmptyString)
      accessToken (INOREADER_REFRESH_TOKEN E)
      (nullish (INOREADER_API_BASE_URL E) "https://www.inoreader.com/reader/api/0")
      (nullish (INOREADER_OAUTH_BASE_URL E) "https://www.inoreader.com/oauth2") in
  ret (new_InoreaderClient config accessToken).

End Program.

(** ** [src/index.ts]: formatting *)

Record ItemOrigin : Type := mkItemOrigin {
  origin_streamId : string;
  origin_title : string;
  origin_htmlUrl : option string
}.

Record ItemSummary : Type := mkItemSummary {
  direction : string;
  content : string
}.

Record ItemCanonical : Type := mkItemCanonical { href : string }.

Record StreamItem : Type := mkStreamItem {
  item_id : string;
  crawlTimeMsec : option string;
  timestampUsec : option string;
  published : option Z;
  updated : option Z;
  item_title : string;
  canonical : option (list ItemCanonical);
  alternate : option (list ItemCanonical);
  categories : list string;
  origin : option ItemOrigin;
  summary : option ItemSummary;
  author : option string
}.

Record StreamContentsResponse : Type := mkStreamContentsResponse {
  contents_direction : string;
  contents_id : string;
  contents_title : string;
  contents_description : option string;
  contents_updated : option Z;
  contents_continuation : option string;
  items : list StreamItem
}.

(** [links?.[0]?.href] *)
Definition first_href (links : option (list ItemCanonical)) : option string :=
  match links with
  | Some (l :: _) => Some (href l)
  | _ => None
  end.

Definition getArticleUrl (item : StreamItem) : string :=
  if truthy (first_href (canonical item)) then nullish (first_href (canonical item)) EmptyString
  else if truthy (first_href (alternate item)) then nullish (first_href (alternate item)) EmptyString
  else EmptyString.

(** The object built by [formatArticle]; [feedTitle] and [article_summary]
    are the keys that are only sometimes set. *)
Record Article : Type := mkArticle {
  article_id : string;
  article_title : string;
  url : string;
  article_author : string;
  article_published : Z;
  isRead : bool;
  isStarred : bool;
  feedTitle : option string;
  article_summary : option string
}.

(** [formatArticle], lines 127-151 of the tool file. *)
Definition formatArticle (item : StreamItem) : Article :=
  let feed :=
    match origin item with
    | Some o => Some (origin_title o)
    | None => None
    end in
  let text :=
    match summary item with
    | Some sm =>
        if truthy_string (content sm) then
          let content := content sm in
          if 500 <? Z.of_nat (String.length content)
          then Some (substring 0 500 content ++ "...")
          else Some content
        else None
    | None => None
    end in
  mkArticle (item_id item) (item_title item) (getArticleUrl item)
    (nullish (author item) EmptyString) (nullish (published item) 0)
    (array_includes STATE_READ (categories item))
    (array_includes STATE_STARRED (categories item))
    feed text.

(** ** [src/index.ts]: reading a decoded body at its declared type

    [request<T>] casts the decoded JSON to [T]. The handlers below read
    a stream page through that cast; a body that lacks a property the
    handler dereferences makes it throw a [TypeError]. The upstream is
    taken to send the required properties of [types.ts]. *)

Definition obind {A B : Type} (o : option A) (k : A -> option B) : option B :=
  match o with
  | Some a => k a
  | None => None
  end.

Fixpoint lookup_field (k : string) (fields : list (string * Json)) : option Json :=
  match fields with
  | [] => None
  | (k', v) :: rest => if (k =? k')%string then Some v else lookup_field k rest
  end.

Definition prop (k : string) (j : Json) : option Json :=
  match j with
  | JObject fields => lookup_field k fields
  | _ => None
  end.

Definition as_string (j : Json) : option string :=
  match j with
  | JString s => Some s
  | _ => None
  end.

Definition as_number (j : Json) : option Z :=
  match j with
  | JNumber n => Some n
  | _ => None
  end.

Definition as_array (j : Json) : option (list Json) :=
  match j with
  | JArray l => Some l
  | _ => None
  end.

Fixpoint traverse {A B : Type} (f : A -> option B) (l : list A) : option (list B) :=
  match l with
  | [] => Some []
  | x :: rest =>
      obind (f x) (fun y => obind (traverse f rest) (fun ys => Some (y :: ys)))
  end.

Definition string_prop (k : string) (j : Json) : option string :=
  obind (prop k j) as_string.

Definition number_prop (k : string) (j : Json) : option Z :=
  obind (prop k j) as_number.

Definition links_prop (k : string) (j : Json) : option (list ItemCanonical) :=
  obind (obind (prop k j) as_array)
    (traverse (fun l => obind (string_prop "href" l) (fun h => Some (mkItemCanonical h)))).

Definition origin_prop (j : Json) : option ItemOrigin :=
  obind (prop "origin" j) (fun o =>
  obind (string_prop "streamId" o) (fun sid =>
  obind (string_prop "title" o) (fun t =>
  Some (mkItemOrigin sid t (string_prop "htmlUrl" o))))).

Definition summary_prop (j : Json) : option ItemSummary :=
  obind (prop "summary" j) (fun sm =>
  obind (string_prop "content" sm) (fun c =>
  Some (mkItemSummary (nullish (string_prop "direction" sm) EmptyString) c))).

Definition StreamItem_of_json (j : Json) : option StreamItem :=
  obind (string_prop "id" j) (fun id =>
  obind (string_prop "title" j) (fun t =>
  obind (obind (obind (prop "categories" j) as_array) (traverse as_string)) (fun cats =>
  Some (mkStreamItem id (string_prop "crawlTimeMsec" j) (string_prop "timestampUsec" j)
          (number_prop "published" j) (number_prop "updated" j) t
          (links_prop "canonical" j) (links_prop "alternate" j) cats
          (origin_prop j) (summary_prop j) (string_prop "author" j))))).

Definition StreamContentsResponse_of_payload (p : Payload)
  : option StreamContentsResponse :=
  match p with
  | JsonBody j =>
      obind (obind (obind (prop "items" j) as_array) (traverse StreamItem_of_json))
        (fun its =>
           Some (mkStreamContentsResponse
                   (nullish (string_prop "direction" j) EmptyString)
                   (nullish (string_prop "id" j) EmptyString)
                   (nullish (string_prop "title" j) EmptyString)
                   (string_prop "description" j) (number_prop "updated" j)
                   (string_prop "continuation" j) its))
  | _ => None
  end.

(** The object that [JSON.stringify] prints for an article: a key that
    was never set is left out. *)
Definition optional_field (k : string) (v : option string) : list (string * Json) :=
  match v with
  | Some s => [(k, JString s)]
  | None => []
  end.

Definition Article_to_json (a : Article) : Json :=
  JObject
    ([("id", JString (article_id a));
      ("title", JString (article_title a));
      ("url", JString (url a));
      ("author", JString (article_author a));
      ("published", JNumber (article_published a));
      ("isRead", JBool (isRead a));
      ("isStarred", JBool (isStarred a))]
     ++ optional_field "feedTitle" (feedTitle a)
     ++ optional_field "summary" (article_summary a))%list.

(** ** [src/index.ts]: the tools *)

(** What a handler returns: [value] is the object whose [JSON.stringify]
    is the text of the reply. *)
Record ToolResult : Type := mkToolResult {
  value : Json;
  isError : bool
}.

(** A tool call either fails the declared argument schema, and then the
    handler does not run, or is answered by the handler. *)
Inductive ToolOutcome : Type :=
| InvalidArguments
| Reply (r : ToolResult).

(** The module variable [client] and the world. *)
Record ServerState : Type := mkServerState {
  client : option InoreaderClient;
  server_world : World
}.

Definition handleToolError (e : Exn) : ToolResult :=
  mkToolResult (JObject [("error", JString (message e))]) true.

(** [z.number().min(1).max(100).default(20)] *)
Definition count_schema (raw : option Z) : option Z :=
  match raw with
  | None => Some 20
  | Some n => if (1 <=? n) && (n <=? 100) then Some n else None
  end.

(** [z.boolean().default(true)] *)
Definition unread_only_schema (raw : option bool) : bool := nullish raw true.

Section Tools.

Variable E : Env.

Definition getClient : M ServerState InoreaderClient :=
  fun st =>
    match client st with
    | Some c => (Ok c, st)
    | None =>
        match createClient E (server_world st) with
        | (Ok c, w) => (Ok c, mkServerState (Some c) w)
        | (Throw e, w) => (Throw e, mkServerState None w)
        end
    end.

(** [await c.method(...)]: the method runs on the object held by the
    module variable, which keeps the changes made to it. *)
Definition on_client {A : Type} (c : InoreaderClient) (m : M Session A)
  : M ServerState A :=
  fun st =>
    let (r, s') := m (mkSession c (server_world st)) in
    (r, mkServerState (Some (this s')) (world s')).

(** The body of a handler: [try { ... } catch (e) { return handleToolError(e) }]. *)
Definition handler (m : M ServerState ToolResult) (st : ServerState)
  : ToolOutcome * ServerState :=
  match m st with
  | (Ok r, st') => (Reply r, st')
  | (Throw e, st') => (Reply (handleToolError e), st')
  end.

Definition typed_contents (p : Payload) : M ServerState StreamContentsResponse :=
  match StreamContentsResponse_of_payload p with
  | Some contents => ret contents
  | None =>
      throw (mkExn ClsTypeError "undefined is not an object (evaluating 'contents.items')")
  end.

(** Lines 296-310: the client call that [get_articles] makes for its
    validated arguments. *)
Definition get_articles_call (stream_id : option string) (count : Z)
    (unread_only : bool) : Operation :=
  if truthy stream_id then
    GetStreamContents (nullish stream_id EmptyString)
      (mkStreamOptions (Some count) None
         (if unread_only then Some STATE_READ else None) None)
  else if unread_only then GetUnreadItems (Some count)
  else
    GetStreamContents STATE_READING_LIST (mkStreamOptions (Some count) None None None).

(** The tool [get_articles]. *)
Definition get_articles (stream_id : option string) (count : option Z)
    (unread_only : option bool) (st : ServerState) : ToolOutcome * ServerState :=
  match count_schema count with
  | None => (InvalidArguments, st)
  | Some count =>
      let unread_only := unread_only_schema unread_only in
      handler
        (c <- getClient ;;
         payload <- on_client c (call E (get_articles_call stream_id count unread_only)) ;;
         contents <- typed_contents payload ;;
         ret (mkToolResult
                (JObject
                   ([("count", JNumber (Z.of_nat (List.length (items contents))))]
                    ++ optional_field "continuation" (contents_continuation contents)
                    ++ [("articles",
                         JArray (map (fun i => Article_to_json (formatArticle i))
                                   (items contents)))])%list)
                false))
        st
  end.

(** The tool [get_starred_articles]. *)
Definition get_starred_articles (count : option Z) (st : ServerState)
  : ToolOutcome * ServerState :=
  match count_schema count with
  | None => (InvalidArguments, st)
  | Some count =>
      handler
        (c <- getClient ;;
         payload <- on_client c (call E (GetStarredItems (Some count))) ;;
         contents <- typed_contents payload ;;
         ret (mkToolResult
                (JObject
                   [("count", JNumber (Z.of_nat (List.length (items contents))));
                    ("articles",
                     JArray (map (fun i => Article_to_json (formatArticle i))
                               (items contents)))])
                false))
        st
  end.

(** The tool [mark_as_unread]. *)
Definition mark_as_unread (item_ids : list string) (st : ServerState)
  : ToolOutcome * ServerState :=
  handler
    (c <- getClient ;;
     on_client c (markAsUnread E item_ids) ;;;
     ret (mkToolResult
            (JObject
               [("success", JBool true);
                ("message",
                 JString ("Marked " ++ String_of_Z (Z.of_nat (List.length item_ids)) ++
                          " items as unread"))])
            false))
    st.

End Tools.

(** ** Vocabulary of the statements *)

(** The arguments of one [request]. *)
Record RequestArgs : Type := mkRequestArgs {
  arg_method : string;
  arg_endpoint : string;
  arg_params : option Pairs;
  arg_body : option Body
}.

Definition request_with (E : Env) (a : RequestArgs) : M Session Payload :=
  request E (arg_method a) (arg_endpoint a) (arg_params a) (arg_body a).

(** The HTTP request that an attempt made from session [s] sends. *)
Definition attempt (a : RequestArgs) (s : Session) : HttpRequest :=
  build_request (this s) (arg_method a) (arg_endpoint a) (arg_params a) (arg_body a).

(** What the upstream answers to an attempt made from session [s]. *)
Definition answer (E : Env) (a : RequestArgs) (s : Session) : option Response :=
  api E (trace (world s)) (attempt a s).

(** The session right after an attempt has been sent. *)
Definition sent (a : RequestArgs) (s : Session) : Session :=
  mkSession (this s) (log (EvFetch (attempt a s)) (world s)).

(** The session in which the refresh protocol runs after a first 401. *)
Definition retrying (a : RequestArgs) (s : Session) : Session :=
  mkSession (set_hasRetriedAuth true (this s)) (world (sent a s)).

(** The request that an operation issues, [None] when it issues none:
    it stops at a local check or has nothing to do. *)
Definition request_of (op : Operation) : option RequestArgs :=
  match op with
  | GetUserInfo => Some (mkRequestArgs "GET" "/user-info" None None)
  | GetUnreadCounts =>
      Some (mkRequestArgs "GET" "/unread-count" (Some [("output", "json")]) None)
  | GetSubscriptions =>
      Some (mkRequestArgs "GET" "/subscription/list" (Some [("output", "json")]) None)
  | GetTags => Some (mkRequestArgs "GET" "/tag/list" (Some [("output", "json")]) None)
  | GetStreamContents streamId options =>
      Some (mkRequestArgs "GET" ("/stream/contents/" ++ encodeURIComponent streamId)
              (Some (stream_params options)) None)
  | GetStarredItems count =>
      Some (mkRequestArgs "GET" ("/stream/contents/" ++ encodeURIComponent STATE_STARRED)
              (Some (stream_params
                       (mkStreamOptions (Some (nullish count 20)) None None (Some true))))
              None)
  | GetUnreadItems count =>
      Some (mkRequestArgs "GET"
              ("/stream/contents/" ++ encodeURIComponent STATE_READING_LIST)
              (Some (stream_params
                       (mkStreamOptions (Some (nullish count 20)) None
                          (Some STATE_READ) None)))
              None)
  | AddSubscription feedUrl title =>
      Some (mkRequestArgs "POST" "/subscription/quickadd"
              (Some (if truthy title
                     then params_set "t" (nullish title EmptyString) [("quickadd", feedUrl)]
                     else [("quickadd", feedUrl)]))
              None)
  | RemoveSubscription subscriptionId =>
      Some (mkRequestArgs "POST" "/subscription/edit" None
              (Some (BodyRecord [("ac", "unsubscribe"); ("s", subscriptionId)])))
  | MarkAsRead itemIds streamId timestamp =>
      if match itemIds with
         | Some ids => 0 <? Z.of_nat (List.length ids)
         | None => false
         end
      then
        Some (mkRequestArgs "POST" "/edit-tag" None
                (Some (BodyParams
                         (append_ids (nullish itemIds [])
                            (params_append "a" STATE_READ [])))))
      else if truthy streamId then
        Some (mkRequestArgs "POST" "/mark-all-as-read" None
                (Some (BodyRecord
                         match timestamp with
                         | Some ts =>
                             if ts =? 0 then [("s", nullish streamId EmptyString)]
                             else params_set "ts" (String_of_Z ts)
                                    [("s", nullish streamId EmptyString)]
                         | None => [("s", nullish streamId EmptyString)]
                         end)))
      else None
  | MarkAsUnread itemIds =>
      if Z.of_nat (List.length itemIds) =? 0 then None
      else
        Some (mkRequestArgs "POST" "/edit-tag" None
                (Some (BodyParams
                         (append_ids itemIds (params_append "r" STATE_READ [])))))
  | AddStar itemId =>
      Some (mkRequestArgs "POST" "/edit-tag" None
              (Some (BodyRecord [("a", STATE_STARRED); ("i", itemId)])))
  | RemoveStar itemId =>
      Some (mkRequestArgs "POST" "/edit-tag" None
              (Some (BodyRecord [("r", STATE_STARRED); ("i", itemId)])))
  | AddTag itemId tag =>
      Some (mkRequestArgs "POST" "/edit-tag" None
              (Some (BodyRecord [("a", tag); ("i", itemId)])))
  | RemoveTag itemId tag =>
      Some (mkRequestArgs "POST" "/edit-tag" None
              (Some (BodyRecord [("r", tag); ("i", itemId)])))
  | EditSubscription subscriptionId options =>
      if negb (truthy (title options)) && negb (truthy (addToFolder options)) &&
         negb (truthy (removeFromFolder options))
      then None
      else if truthy (addToFolder options) && truthy (removeFromFolder options) &&
              (nullish (addToFolder options) EmptyString =? nullish (removeFromFolder options) EmptyString)%string
      then None
      else
        Some (mkRequestArgs "POST" "/subscription/edit" None
                (Some (BodyParams (edit_body subscriptionId options))))
  end.

(** A typed operation hands the payload of [request] on as it is, or
    awaits it and returns nothing. *)
Definition returned (op : Operation) (p : Payload) : Payload :=
  match op with
  | GetUserInfo | GetUnreadCounts | GetSubscriptions | GetTags
  | GetStreamContents _ _ | GetStarredItems _ | GetUnreadItems _
  | AddSubscription _ _ => p
  | _ => Empty
  end.

Definition is_fetch (e : Event) : bool :=
  match e with
  | EvFetch _ => true
  | _ => false
  end.

Definition is_load (e : Event) : bool :=
  match e with
  | EvLoadTokens => true
  | _ => false
  end.

Definition is_save (e : Event) : bool :=
  match e with
  | EvSaveTokens _ => true
  | _ => false
  end.

(** The number of REST calls, and of runs of the refresh protocol, in a
    trace: the protocol starts by loading the stored tokens. *)
Definition fetch_count (tr : list Event) : nat := List.length (filter is_fetch tr).

Definition refresh_count (tr : list Event) : nat := List.length (filter is_load tr).

(** The page size that the specification describes: the requested count,
    20 when absent, clamped to the range [1, 1000]. *)
Definition spec_page_size (count : option Z) : Z :=
  Z.max 1 (Z.min (nullish count 20) 1000).

(** The form that [refreshAccessToken] posts for a refresh token. *)
Definition refresh_form (E : Env) (refreshToken : string) : Pairs :=
  [("client_id", nullish (INOREADER_APP_ID E) EmptyString);
   ("client_secret", nullish (INOREADER_APP_KEY E) EmptyString);
   ("grant_type", "refresh_token");
   ("refresh_token", refreshToken)].

(** The pair that a refresh persists: the new access token, the new
    refresh token or else the stored one, and the new expiry. [w] is the
    world in which the clock is read. *)
Definition refreshed_pair (E : Env) (tokens : TokenData) (newTokens : TokenResponse)
    (w : World) : TokenData :=
  mkTokenData (access_token newTokens)
    (or_else (refresh_token newTokens) (refreshToken_of tokens))
    (expiry_at (Date_now E (trace w)) (expires_in newTokens)).

(** An event that is neither a REST call nor the start of a refresh. *)
Definition quiet (e : Event) : bool := negb (is_fetch e) && negb (is_load e).

(** The retry scoping that the specification describes: whatever an
    earlier call on a fresh client did, a later call that gets a 401 on
    its first attempt runs the refresh protocol. *)
Definition per_call_retry_scoping : Prop :=
  forall (E : Env) (op op' : Operation) (b : RequestArgs) (s : Session)
         (r : Response),
    hasRetriedAuth (this s) = false ->
    let s1 := snd (call E op s) in
    request_of op' = Some b ->
    answer E b s1 = Some r ->
    status r = 401 ->
    refresh_count (trace (world (snd (call E op' s1)))) =
    (refresh_count (trace (world s1)) + 1)%nat.

(** ** Concrete scenarios *)

Definition r401 : Response := mkResponse 401 "Unauthorized" None EmptyString None.

Definition r500 : Response :=
  mkResponse 500 "Internal Server Error" (Some "text/html") "oops" None.

Definition r200_json : Response :=
  mkResponse 200 "OK" (Some "application/json; charset=utf-8") "{}" (Some (JObject [])).

Definition r200_text : Response := mkResponse 200 "OK" (Some "text/plain") "OK" None.

Definition r204 : Response := mkResponse 204 "No Content" None EmptyString None.

(** A Linux host with working [secret-tool], whose upstream answers the
    successive REST calls with [script] (a call past its end is a rejected
    [fetch]) and every token request with [token_answer]. *)
Definition scripted (script : list Response) (token_answer : option TokenEndpointResponse)
  : Env :=
  mkEnv Linux (Some "app-id") (Some "app-key") None None None None
    (fun tr _ => nth_error script (fetch_count tr))
    (fun _ _ => token_answer)
    (fun _ _ => true)
    (fun _ => 1700000000000).

(** A token endpoint answer that leaves the refresh token out. *)
Definition new_access_only : option TokenEndpointResponse :=
  Some (mkTokenEndpointResponse true EmptyString
          (Some (mkTokenResponse (Some "A2") None (Some 3600) (Some "Bearer")))).

(** A token endpoint answer of status 200 whose body is an empty object. *)
Definition empty_answer : option TokenEndpointResponse :=
  Some (mkTokenEndpointResponse true EmptyString
          (Some (mkTokenResponse None None None None))).

Definition example_config : Config :=
  mkConfig "app-id" "app-key" (Some "A1") None
    "https://www.inoreader.com/reader/api/0" "https://www.inoreader.com/oauth2".

(** A freshly constructed client in a world that stores [stored]. *)
Definition fresh_session (stored : option TokenData) : Session :=
  mkSession (new_InoreaderClient example_config (Some "A1")) (mkWorld [] stored).

Definition stored_pair : TokenData := mkTokenData (Some "A1") "R1" (Some 1600000000000).

Definition user_info_args : RequestArgs := mkRequestArgs "GET" "/user-info" None None.

Definition example_item (cats : list string) (text : option string) : StreamItem :=
  mkStreamItem "item-1" None None (Some 1700000000) None "A title" None None cats None
    (match text with
     | Some t => Some (mkItemSummary "ltr" t)
     | None => None
     end)
    None.

(** A string of [n] letters. *)
Fixpoint letters (n : nat) : string :=
  match n with
  | O => EmptyString
  | S k => String "x" (letters k)
  end.

(** An expired token: the first call is refused, the refresh succeeds
    and the replay is answered. *)
Definition env_expired : Env := scripted [r401; r200_json] new_access_only.

(** The session in which the replay of that call is made. *)
Definition session_refreshed : Session :=
  snd (tryRefreshToken env_expired
         (retrying user_info_args (fresh_session (Some stored_pair)))).

(** An upstream that refuses every token, with nothing stored to
    refresh from. *)
Definition env_refused : Env := scripted [r401; r401] None.

(** A first call that succeeds, then a refused one. *)
Definition env_ok_then_refused : Env := scripted [r200_json; r401] None.

Definition session_after_ok : Session :=
  snd (call env_ok_then_refused GetUserInfo (fresh_session None)).

Definition star_args : RequestArgs :=
  mkRequestArgs "POST" "/edit-tag" None
    (Some (BodyRecord [("a", STATE_STARRED); ("i", "item-1")])).

Definition page_of_5000 : StreamOptions := mkStreamOptions (Some 5000) None None None.

Definition server_ready : ServerState :=
  mkServerState (Some (new_InoreaderClient example_config (Some "A1"))) (mkWorld [] None).

(** ** The rest of the secret store and of the tools *)

Section Remainder.

Variable E : Env.

(** [macOSDelete], [linuxDelete] and [deleteTokens] of [keychain.ts]: a
    failed command is ignored. *)
Definition macOSDelete : M World unit :=
  try_catch
    (shell E SecurityDelete ;;;
     fun w => (Ok tt, set_keychain None w))
    (fun _ => ret tt).

Definition linuxDelete : M World unit :=
  try_catch
    (shell E SecretToolClear ;;;
     fun w => (Ok tt, set_keychain None w))
    (fun _ => ret tt).

Definition deleteTokens : M World unit :=
  match platform E with
  | Darwin => macOSDelete
  | Linux => linuxDelete
  | OtherPlatform _ => ret tt
  end.

(** The tool [mark_as_read]. An array, even an empty one, is truthy. *)
Definition mark_as_read (item_ids : option (list string)) (stream_id : option string)
    (st : ServerState) : ToolOutcome * ServerState :=
  handler
    (if match item_ids with
        | Some _ => false
        | None => true
        end && negb (truthy stream_id)
     then
       ret (mkToolResult
              (JObject [("error", JString "Provide either item_ids or stream_id")])
              true)
     else
       c <- getClient E ;;
       on_client c (markAsRead E item_ids stream_id None) ;;;
       let message :=
         match item_ids with
         | Some ids =>
             "Marked " ++ String_of_Z (Z.of_nat (List.length ids)) ++ " items as read"
         | None =>
             "Marked all items in " ++ nullish stream_id "undefined" ++ " as read"
         end in
       ret (mkToolResult
              (JObject [("success", JBool true); ("message", JString message)])
              false))
    st.

End Remainder.

(** ** More vocabulary *)

Definition is_token_request (e : Event) : bool :=
  match e with
  | EvTokenRequest _ => true
  | _ => false
  end.

(** The number of calls of the token endpoint, and of writes of the
    secret store, in a trace. *)
Definition token_request_count (tr : list Event) : nat :=
  List.length (filter is_token_request tr).

Definition save_count (tr : list Event) : nat := List.length (filter is_save tr).

(** Every shell command works. *)
Definition tools_work (E : Env) : Prop :=
  forall (tr : list Event) (cmd : ShellCommand), shell_ok E tr cmd = true.

(** The [i] fields of a form, in order. *)
Definition id_fields (body : Pairs) : list string :=
  map snd (filter (fun kv => (fst kv =? "i")%string) body).

(** The form of a request body, if it has one. *)
Definition body_fields (a : RequestArgs) : Pairs :=
  match arg_body a with
  | Some b => encode_body b
  | None => []
  end.

(** ** More scenarios *)

Definition r403 : Response := mkResponse 403 "Forbidden" None EmptyString None.

(** A JSON content type on a body that does not decode. *)
Definition r204_json : Response :=
  mkResponse 204 "No Content" (Some "application/json") EmptyString None.

(** The classification of successes that the specification describes:
    for every 2xx response the call returns a result of one of three
    kinds, the decoded body under a content type that indicates JSON,
    nothing under a status of 204 or 205 or an empty body, the raw text
    under any other 2xx response. Nothing is asked here about which kind
    is chosen when two of the rules apply. *)
Definition three_kinds_of_success : Prop :=
  forall (E : Env) (a : RequestArgs) (s : Session) (r : Response),
    answer E a s = Some r ->
    ok r = true ->
    let result := fst (request_with E a s) in
    let json := includes "application/json" (nullish (content_type r) EmptyString) in
    let empty :=
      (status r =? 204) || (status r =? 205) || (body_text r =? EmptyString)%string in
    (json = true /\ exists j : Json, result = Ok (JsonBody j)) \/
    (empty = true /\ result = Ok Empty) \/
    (json = false /\ empty = false /\ result = Ok (TextBody (body_text r))).

(** A macOS host whose [security] commands succeed except for those in
    [failing]. *)
Definition mac_host (failing : list ShellCommand) : Env :=
  mkEnv Darwin (Some "app-id") (Some "app-key") None None None None
    (fun _ _ => None)
    (fun _ _ => new_access_only)
    (fun _ cmd =>
       negb (existsb
               (fun c =>
                  match c, cmd with
                  | SecurityDelete, SecurityDelete
                  | SecurityAdd, SecurityAdd
                  | SecurityFind, SecurityFind
                  | SecretToolStore, SecretToolStore
                  | SecretToolLookup, SecretToolLookup
                  | SecretToolClear, SecretToolClear => true
                  | _, _ => false
                  end)
               failing))
    (fun _ => 1700000000000).

(** A Linux host whose [secret-tool] cannot store. *)
Definition linux_readonly : Env :=
  mkEnv Linux (Some "app-id") (Some "app-key") None None None None
    (fun _ _ => None)
    (fun _ _ => new_access_only)
    (fun _ cmd =>
       match cmd with
       | SecretToolStore => false
       | _ => true
       end)
    (fun _ => 1700000000000).

(** A host of another platform. *)
Definition windows_host : Env :=
  mkEnv (OtherPlatform "win32") (Some "app-id") (Some "app-key") None None None None
    (fun _ _ => None)
    (fun _ _ => new_access_only)
    (fun _ _ => true)
    (fun _ => 1700000000000).

(** A Linux host without application credentials. *)
Definition no_credentials : Env :=
  mkEnv Linux None None None None None None
    (fun tr _ => nth_error [r401] (fetch_count tr))
    (fun _ _ => new_access_only)
    (fun _ _ => true)
    (fun _ => 1700000000000).

(** A Linux host whose token endpoint refuses the refresh token. *)
Definition token_refused : option TokenEndpointResponse :=
  Some (mkTokenEndpointResponse false "invalid_grant" None).

(** A pair that expires in four minutes, and one that expires in an
    hour, on the clock of the scripted hosts. *)
Definition pair_due : TokenData := mkTokenData (Some "A1") "R1" (Some 1700000240000).

Definition pair_fresh : TokenData := mkTokenData (Some "A1") "R1" (Some 1700003600000).

Definition world_storing (stored : option TokenData) : World := mkWorld [] stored.

Definition server_empty (stored : option TokenData) : ServerState :=
  mkServerState None (world_storing stored).

Definition mark_stream_args (streamId : string) : RequestArgs :=
  mkRequestArgs "POST" "/mark-all-as-read" None (Some (BodyRecord [("s", streamId)])).

(** ** Facts about strings, the monad and the collaborators *)

Lemma prefix_app (n b : string) : prefix n (n ++ b) = true.
Proof.
  induction n as [|c n IH]; simpl.
  - destruct b; reflexivity.
  - destruct (ascii_dec c c) as [_|Hc]; [exact IH | contradiction].
Qed.

Lemma includes_unfold (n h : string) :
  includes n h =
  prefix n h || match h with EmptyString => false | String _ rest => includes n rest end.
Proof. destruct h; reflexivity. Qed.

Lemma includes_app (a n b : string) : includes n (a ++ n ++ b) = true.
Proof.
  induction a as [|c a IH].
  - change (EmptyString ++ n ++ b) with (n ++ b).
    rewrite includes_unfold, prefix_app. reflexivity.
  - change (String c a ++ n ++ b) with (String c (a ++ n ++ b)).
    rewrite includes_unfold, IH. apply orb_true_r.
Qed.

Lemma append_nil_r (s : string) : s ++ EmptyString = s.
Proof. induction s as [|c s IH]; cbn; [reflexivity | rewrite IH; reflexivity]. Qed.

Lemma append_assoc (a b c : string) : (a ++ b) ++ c = a ++ (b ++ c).
Proof. induction a as [|x a IH]; cbn; [reflexivity | rewrite IH; reflexivity]. Qed.

Lemma includes_end (a n : string) : includes n (a ++ n) = true.
Proof. rewrite <- (append_nil_r n) at 2. apply includes_app. Qed.

Section Facts.
Variable E : Env.

Lemma request_step method endpoint params body s :
  request E method endpoint params body s =
  match liftW (fetch E (build_request (this s) method endpoint params body)) s with
  | (Throw e, s1) => (Throw e, s1)
  | (Ok response, s1) =>
      if (status response =? 401) && negb (hasRetriedAuth (this s1)) then
        match tryRefreshToken E (mkSession (set_hasRetriedAuth true (this s1)) (world s1)) with
        | (Ok true, s2) => request E method endpoint params body s2
        | (Ok false, s2) => (Throw (AuthenticationError AUTH_EXPIRED), s2)
        | (Throw e, s2) => (Throw e, s2)
        end
      else finish_request response s1
  end.
Proof.
  funelim (request E method endpoint params body s);
    repeat match goal with
           | H : liftW _ _ = _ |- _ => rewrite H
           | H : andb _ _ = _ |- _ => rewrite H
           | H : tryRefreshToken _ _ = _ |- _ => rewrite H
           end;
    reflexivity.
Qed.

Lemma request_answered a s r :
  answer E a s = Some r ->
  request_with E a s =
  if (status r =? 401) && negb (hasRetriedAuth (this s)) then
    match tryRefreshToken E (retrying a s) with
    | (Ok true, s2) => request_with E a s2
    | (Ok false, s2) => (Throw (AuthenticationError AUTH_EXPIRED), s2)
    | (Throw e, s2) => (Throw e, s2)
    end
  else finish_request r (sent a s).
Proof.
  intro Ha. unfold request_with. rewrite request_step.
  unfold liftW, fetch. unfold answer, attempt in Ha. rewrite Ha.
  reflexivity.
Qed.

Lemma request_unanswered a s :
  answer E a s = None ->
  request_with E a s = (Throw (mkExn ClsTypeError "fetch failed"), sent a s).
Proof.
  intro Ha. unfold request_with. rewrite request_step.
  unfold liftW, fetch. unfold answer, attempt in Ha. rewrite Ha.
  reflexivity.
Qed.

Lemma loadTokens_spec w :
  exists r, loadTokens E w = (Ok r, log EvLoadTokens w) /\ (r = None \/ r = keychain w).
Proof.
  cbv beta iota zeta delta [loadTokens macOSGet linuxGet bind ret throw try_catch shell].
  destruct (platform E); cbn;
    repeat (destruct_innermost; cbn); eauto.
Qed.

Lemma refreshAccessToken_spec R w r w' :
  refreshAccessToken E R w = (r, w') ->
  keychain w' = keychain w /\
  (w' = w \/ w' = log (EvTokenRequest (refresh_form E R)) w) /\
  (forall nt, r = Ok nt ->
     w' = log (EvTokenRequest (refresh_form E R)) w /\
     exists resp, oauth E (trace w) (refresh_form E R) = Some resp /\
                  token_ok resp = true /\ token_json resp = Some nt).
Proof.
  cbv beta iota zeta delta [refreshAccessToken getAuthConfig bind ret throw refresh_form].
  destruct (negb (truthy (INOREADER_APP_ID E)) || negb (truthy (INOREADER_APP_KEY E)));
    cbn [auth_appId auth_appKey];
    [| destruct (oauth E (trace w) _) as [resp|] eqn:Ho;
       [destruct (token_ok resp) eqn:Hok; cbn [negb];
        [destruct (token_json resp) as [t|] eqn:Hj |] |] ];
    intro H; inversion H; subst; clear H;
    (split; [reflexivity |]);
    (split; [auto |]);
    intros nt Hnt; try discriminate.
  inversion Hnt; subst. split; [reflexivity | eauto].
Qed.

Lemma saveTokens_spec pair w r w' :
  saveTokens E pair w = (r, w') ->
  trace w' = (trace w ++ [EvSaveTokens pair])%list /\
  (r = Ok tt -> keychain w' = Some pair).
Proof.
  cbv beta iota zeta delta [saveTokens macOSSet linuxSet bind ret throw try_catch shell].
  destruct (platform E); cbn;
    repeat (destruct_innermost; cbn);
    intro H; inversion H; subst; cbn; split; auto; try discriminate.
Qed.

Lemma tryRefreshToken_spec s r s' :
  tryRefreshToken E s = (r, s') ->
  exists l,
    trace (world s') = (trace (world s) ++ EvLoadTokens :: l)%list /\
    forallb quiet l = true /\
    ((r = Ok false /\ this s' = this s) \/
     (r = Ok true /\
      exists tokens nt resp,
        let w1 := log EvLoadTokens (world s) in
        let w2 := log (EvTokenRequest (refresh_form E (refreshToken_of tokens))) w1 in
        keychain (world s) = Some tokens /\
        truthy_string (refreshToken_of tokens) = true /\
        oauth E (trace w1) (refresh_form E (refreshToken_of tokens)) = Some resp /\
        token_ok resp = true /\ token_json resp = Some nt /\
        saveTokens E (refreshed_pair E tokens nt w2) w2 = (Ok tt, world s') /\
        this s' = set_accessToken (access_token nt) (this s))).
Proof.
  cbv beta iota zeta delta [tryRefreshToken bind ret throw try_catch liftW update_this now].
  destruct (loadTokens_spec (world s)) as [ld [Hld Hkc]]. rewrite Hld.
  cbn [this world].
  destruct ld as [tokens|].
  2:{ intro H; inversion H; subst; clear H. exists []. cbn. auto. }
  destruct Hkc as [Hkc|Hkc]; [discriminate|].
  destruct (truthy_string (refreshToken_of tokens)) eqn:Htr; cbn [negb this world].
  2:{ intro H; inversion H; subst; clear H. exists []. cbn. auto. }
  destruct (refreshAccessToken E (refreshToken_of tokens) (log EvLoadTokens (world s)))
    as [[nt|e] w2] eqn:Href.
  2:{ apply refreshAccessToken_spec in Href. destruct Href as [_ [Hw _]].
      intro H; inversion H; subst; clear H. cbn [this world].
      destruct Hw as [->| ->]; eexists;
        (split; [cbn; rewrite <- ?app_assoc; reflexivity |]); cbn; auto. }
  apply refreshAccessToken_spec in Href. destruct Href as [_ [_ Hok]].
  destruct (Hok nt eq_refl) as [-> [resp [Ho [Hrok Hj]]]]. clear Hok.
  cbn [this world].
  match goal with
  | |- context [saveTokens E ?p ?w] =>
      destruct (saveTokens E p w) as [[[]|e] w3] eqn:Hsave
  end.
  - pose proof (saveTokens_spec _ _ _ _ Hsave) as [Htr3 _].
    intro H; inversion H; subst; clear H. cbn [this world].
    eexists. split; [rewrite Htr3; cbn; rewrite <- !app_assoc; reflexivity |].
    split; [reflexivity|]. right. split; [reflexivity|].
    exists tokens, nt, resp. cbn zeta. rewrite <- Hkc. auto 10.
  - pose proof (saveTokens_spec _ _ _ _ Hsave) as [Htr3 _].
    intro H; inversion H; subst; clear H. cbn [this world].
    eexists. split; [rewrite Htr3; cbn; rewrite <- !app_assoc; reflexivity |].
    cbn. auto.
Qed.

Lemma decode_response_session r s : snd (decode_response r s) = s.
Proof.
  unfold decode_response, ret, throw.
  repeat (destruct_innermost; cbn); reflexivity.
Qed.

Lemma finish_request_ok r s :
  ok r = true ->
  finish_request r s =
  (fst (decode_response r (mkSession (set_hasRetriedAuth false (this s)) (world s))),
   mkSession (set_hasRetriedAuth false (this s)) (world s)).
Proof.
  intro Hok. unfold finish_request.
  assert (H401 : (status r =? 401) = false) by (unfold ok in Hok; lia).
  assert (H403 : (status r =? 403) = false) by (unfold ok in Hok; lia).
  rewrite H401, H403, Hok. cbn [negb].
  cbv beta iota zeta delta [bind update_this].
  rewrite (surjective_pairing (decode_response r _)) at 1.
  rewrite decode_response_session.
  destruct (fst (decode_response r _)); reflexivity.
Qed.

Lemma finish_request_returns r s v s' :
  finish_request r s = (Ok v, s') ->
  ok r = true /\ s' = mkSession (set_hasRetriedAuth false (this s)) (world s).
Proof.
  destruct (ok r) eqn:Hok.
  - rewrite (finish_request_ok _ _ Hok). intro H; inversion H; auto.
  - unfold finish_request. rewrite Hok. cbn [negb]. unfold throw.
    repeat (destruct_innermost; cbn); intro H; discriminate.
Qed.

Lemma request_replay a s :
  hasRetriedAuth (this s) = true ->
  request_with E a s =
  match answer E a s with
  | Some r => finish_request r (sent a s)
  | None => (Throw (mkExn ClsTypeError "fetch failed"), sent a s)
  end.
Proof.
  intro Hflag. destruct (answer E a s) as [r|] eqn:Ha.
  - rewrite (request_answered _ _ _ Ha), Hflag, andb_false_r. reflexivity.
  - apply request_unanswered, Ha.
Qed.

Lemma tryRefreshToken_flag s r s' :
  tryRefreshToken E s = (r, s') -> hasRetriedAuth (this s') = hasRetriedAuth (this s).
Proof.
  intro H. apply tryRefreshToken_spec in H.
  destruct H as [l [_ [_ [[_ Hthis] | [_ [tokens [nt [resp H]]]]]]]].
  - rewrite Hthis. reflexivity.
  - cbn zeta in H. destruct H as [_ [_ [_ [_ [_ [_ Hthis]]]]]].
    rewrite Hthis. reflexivity.
Qed.

Lemma tryRefreshToken_never_throws s : forall e s', tryRefreshToken E s <> (Throw e, s').
Proof.
  intros e s' H. apply tryRefreshToken_spec in H.
  destruct H as [l [_ [_ [[H _] | [H _]]]]]; discriminate.
Qed.

Lemma request_returns_flag a s v s' :
  request_with E a s = (Ok v, s') -> hasRetriedAuth (this s') = false.
Proof.
  assert (Hreplay : forall s0, hasRetriedAuth (this s0) = true ->
            request_with E a s0 = (Ok v, s') -> hasRetriedAuth (this s') = false).
  { intros s0 Hflag. rewrite (request_replay _ _ Hflag).
    destruct (answer E a s0); [|discriminate].
    intro H. apply finish_request_returns in H. destruct H as [_ ->]. reflexivity. }
  destruct (answer E a s) as [r|] eqn:Ha.
  - rewrite (request_answered _ _ _ Ha).
    destruct ((status r =? 401) && negb (hasRetriedAuth (this s))).
    + destruct (tryRefreshToken E (retrying a s)) as [[[|]|e] s2] eqn:Hr; try discriminate.
      apply Hreplay. rewrite (tryRefreshToken_flag _ _ _ Hr). reflexivity.
    + intro H. apply finish_request_returns in H. destruct H as [_ ->]. reflexivity.
  - rewrite (request_unanswered _ _ Ha). discriminate.
Qed.

Lemma finish_request_world r s : world (snd (finish_request r s)) = world s.
Proof.
  unfold finish_request, decode_response.
  cbv beta iota zeta delta [bind update_this ret throw].
  repeat (destruct_innermost; cbn); reflexivity.
Qed.

Lemma finish_request_result r s s' : fst (finish_request r s) = fst (finish_request r s').
Proof.
  unfold finish_request, decode_response.
  cbv beta iota zeta delta [bind update_this ret throw].
  repeat (destruct_innermost; cbn); reflexivity.
Qed.

Lemma request_replay_world a s :
  hasRetriedAuth (this s) = true ->
  world (snd (request_with E a s)) = world (sent a s).
Proof.
  intro Hflag. rewrite (request_replay _ _ Hflag).
  destruct (answer E a s); [apply finish_request_world | reflexivity].
Qed.

Lemma fetch_count_app l1 l2 : fetch_count (l1 ++ l2) = (fetch_count l1 + fetch_count l2)%nat.
Proof. unfold fetch_count. rewrite filter_app, length_app. reflexivity. Qed.

Lemma refresh_count_app l1 l2 :
  refresh_count (l1 ++ l2) = (refresh_count l1 + refresh_count l2)%nat.
Proof. unfold refresh_count. rewrite filter_app, length_app. reflexivity. Qed.

Lemma quiet_counts l :
  forallb quiet l = true -> fetch_count l = 0%nat /\ refresh_count l = 0%nat.
Proof.
  unfold fetch_count, refresh_count.
  induction l as [|e l IH]; cbn; [auto|].
  intro H. apply andb_prop in H. destruct H as [He Hl].
  destruct (IH Hl) as [IHf IHr].
  unfold quiet in He. apply andb_prop in He. destruct He as [Hf Hr].
  destruct (is_fetch e); [discriminate|]. destruct (is_load e); [discriminate|].
  auto.
Qed.

(** The trace of a whole call of [request]. *)
Lemma request_trace a s :
  exists l,
    trace (world (snd (request_with E a s))) =
    (trace (world s) ++ EvFetch (attempt a s) :: l)%list /\
    (l = [] \/
     exists q tail,
       l = (EvLoadTokens :: q ++ tail)%list /\ forallb quiet q = true /\
       (tail = [] \/ exists req, tail = [EvFetch req])).
Proof.
  destruct (answer E a s) as [r|] eqn:Ha.
  2:{ rewrite (request_unanswered _ _ Ha). exists []. auto. }
  rewrite (request_answered _ _ _ Ha).
  destruct ((status r =? 401) && negb (hasRetriedAuth (this s))).
  2:{ rewrite finish_request_world. exists []. auto. }
  destruct (tryRefreshToken E (retrying a s)) as [res s2] eqn:Hr.
  pose proof (tryRefreshToken_flag _ _ _ Hr) as Hflag. cbn in Hflag.
  pose proof (tryRefreshToken_spec _ _ _ Hr) as [q [Htr [Hq _]]].
  cbn [retrying sent world trace log] in Htr.
  rewrite <- app_assoc in Htr. cbn [app] in Htr.
  destruct res as [[|]|e].
  - rewrite (request_replay_world _ _ Hflag). cbn [sent world log trace].
    rewrite Htr, <- app_assoc. cbn [app].
    eexists. split; [reflexivity|]. right. exists q, [EvFetch (attempt a s2)].
    split; [reflexivity|]. eauto.
  - cbn [snd]. rewrite Htr. eexists. split; [reflexivity|]. right.
    exists q, []. rewrite app_nil_r. auto.
  - cbn [snd]. rewrite Htr. eexists. split; [reflexivity|]. right.
    exists q, []. rewrite app_nil_r. auto.
Qed.

Lemma request_counts a s :
  (refresh_count (trace (world (snd (request_with E a s)))) <=
   refresh_count (trace (world s)) + 1)%nat /\
  (fetch_count (trace (world (snd (request_with E a s)))) <=
   fetch_count (trace (world s)) + 2)%nat.
Proof.
  destruct (request_trace a s) as [l [Htr Hl]]. rewrite Htr.
  rewrite refresh_count_app, fetch_count_app.
  destruct Hl as [-> | [q [tail [-> [Hq Htail]]]]].
  - cbn. lia.
  - change (EvFetch (attempt a s) :: EvLoadTokens :: q ++ tail)%list
      with ([EvFetch (attempt a s); EvLoadTokens] ++ q ++ tail)%list.
    rewrite !refresh_count_app, !fetch_count_app.
    destruct (quiet_counts _ Hq) as [-> ->].
    destruct Htail as [-> | [req ->]]; cbn; lia.
Qed.
End Facts.


Section Operations.
Variable E : Env.

Lemma pair_eta (x : Result Payload * Session) :
  x = (match fst x with Ok p => Ok p | Throw e => Throw e end, snd x).
Proof. destruct x as [[p|e] s]; reflexivity. Qed.

Lemma void_eta (m : M Session Payload) (s : Session) :
  returns_void (void m) s =
  (match fst (m s) with Ok _ => Ok Empty | Throw e => Throw e end, snd (m s)).
Proof.
  cbv beta iota zeta delta [returns_void void bind ret].
  destruct (m s) as [[p|e] s']; reflexivity.
Qed.

Lemma call_request_of op a s :
  request_of op = Some a ->
  call E op s =
  (match fst (request_with E a s) with
   | Ok p => Ok (returned op p)
   | Throw e => Throw e
   end, snd (request_with E a s)).
Proof.
  destruct op; cbn [request_of call returned];
    unfold getUserInfo, getUnreadCounts, getSubscriptions, getTags, getStreamContents,
      getStarredItems, getUnreadItems, addSubscription, removeSubscription, markAsRead,
      markAsUnread, addStar, removeStar, addTag, removeTag, editSubscription;
    intro H; split_conditions H; try discriminate;
    inversion H; subst; clear H;
    first [apply pair_eta | apply void_eta].
Qed.

Lemma call_local op s : request_of op = None -> call E op s = (fst (call E op s), s).
Proof.
  destruct op; cbn [request_of call returned]; try discriminate;
    unfold markAsRead, markAsUnread, editSubscription;
    intro H; split_conditions H; try discriminate; reflexivity.
Qed.
End Operations.

Lemma filter_is_save_app l1 l2 :
  filter is_save (l1 ++ l2) = (filter is_save l1 ++ filter is_save l2)%list.
Proof. apply filter_app. Qed.

Lemma stream_params_n (options : StreamOptions) :
  params_lookup "n"
    (fold_left (fun acc kv => params_set (fst kv) (snd kv) acc) (stream_params options) []) =
  Some (String_of_Z (Math_min (nullish (count options) 20) 1000)).
Proof.
  unfold stream_params.
  destruct (truthy (continuation options)), (truthy (excludeTarget options)),
    (nullish (includeAllItems options) false); reflexivity.
Qed.

Lemma count_schema_range (raw : option Z) (c : Z) :
  count_schema raw = Some c -> 1 <= c <= 100.
Proof.
  unfold count_schema. destruct raw as [n|].
  - destruct ((1 <=? n) && (n <=? 100)) eqn:H; intro Hc; inversion Hc; subst. lia.
  - intro Hc; inversion Hc; subst. lia.
Qed.

Lemma array_includes_In (x : string) (xs : list string) :
  array_includes x xs = true <-> In x xs.
Proof.
  unfold array_includes. rewrite existsb_exists. split.
  - intros [y [Hin Heq]]. apply String.eqb_eq in Heq. subst y. exact Hin.
  - intro Hin. exists x. split; [exact Hin | apply String.eqb_refl].
Qed.

Lemma substring_0_length (n : nat) (s : string) :
  (n <= String.length s)%nat -> String.length (substring 0 n s) = n.
Proof.
  revert s. induction n as [|n IH]; intros s Hn.
  - destruct s; reflexivity.
  - destruct s as [|c s]; cbn in Hn; [lia|].
    cbn. rewrite IH; [reflexivity | lia].
Qed.

Lemma substring_0_prefix (n : nat) (s : string) : prefix (substring 0 n s) s = true.
Proof.
  revert s. induction n as [|n IH]; intros s.
  - destruct s; reflexivity.
  - destruct s as [|c s]; [reflexivity|].
    cbn. destruct (ascii_dec c c) as [_|Hc]; [apply IH | contradiction].
Qed.

Lemma append_ids_map (ids : list string) (body : Pairs) :
  append_ids ids body = (body ++ map (fun id => ("i", id)) ids)%list.
Proof.
  unfold append_ids, params_append. revert body.
  induction ids as [|id ids IH]; intro body; cbn.
  - rewrite app_nil_r. reflexivity.
  - rewrite IH, <- app_assoc. reflexivity.
Qed.


(** ** The claims *)

(** C1. A call whose first attempt is answered 401 while its allowance
    is unused, whose token refresh then succeeds and whose replay is
    answered by a 2xx response returns what [finish_request] makes of
    that response, which is the result of any call of the same request
    that is answered by that response outright, and it leaves the flag
    clear. When the replay is answered 401 instead, the call fails with
    the Authentication error in the session of the replay: nothing runs
    after it. Either way the call ran the refresh protocol once and sent
    two requests; and no call at all runs the refresh protocol more than
    once. *)
Theorem C1_refresh_and_replay_once (E : Env) (a : RequestArgs) (s s2 : Session)
    (r1 r2 : Response) :
  hasRetriedAuth (this s) = false ->
  answer E a s = Some r1 ->
  status r1 = 401 ->
  tryRefreshToken E (retrying a s) = (Ok true, s2) ->
  answer E a s2 = Some r2 ->
  (ok r2 = true ->
   request_with E a s = finish_request r2 (sent a s2) /\
   hasRetriedAuth (this (snd (request_with E a s))) = false /\
   forall (E' : Env) (s' : Session),
     answer E' a s' = Some r2 ->
     fst (request_with E a s) = fst (request_with E' a s')) /\
  (status r2 = 401 ->
   request_with E a s = (Throw (AuthenticationError AUTH_EXPIRED), sent a s2)) /\
  refresh_count (trace (world (snd (request_with E a s)))) =
    (refresh_count (trace (world s)) + 1)%nat /\
  fetch_count (trace (world (snd (request_with E a s)))) =
    (fetch_count (trace (world s)) + 2)%nat /\
  (forall s0 : Session,
     (refresh_count (trace (world (snd (request_with E a s0)))) <=
      refresh_count (trace (world s0)) + 1)%nat).
Proof.
  intros Hfresh Ha1 H401 Hrefresh Ha2.
  assert (Hflag2 : hasRetriedAuth (this s2) = true).
  { rewrite (tryRefreshToken_flag _ _ _ _ Hrefresh). reflexivity. }
  assert (Hcall : request_with E a s =
                  finish_request r2 (sent a s2)).
  { rewrite (request_answered _ _ _ _ Ha1), H401, Hfresh. cbn [Z.eqb Pos.eqb negb andb].
    rewrite Hrefresh, (request_replay _ _ _ Hflag2), Ha2. reflexivity. }
  split; [| split; [| split; [| split]]].
  - intro Hok. split; [exact Hcall|]. split.
    + rewrite Hcall, (finish_request_ok _ _ Hok). reflexivity.
    + intros E' s' Ha'.
      rewrite Hcall, (request_answered _ _ _ _ Ha').
      assert (Hne : (status r2 =? 401) = false) by (unfold ok in Hok; lia).
      rewrite Hne. cbn [andb]. apply finish_request_result.
  - intro H2. rewrite Hcall. unfold finish_request. rewrite H2. reflexivity.
  - rewrite Hcall, finish_request_world. cbn [sent world log trace].
    pose proof (tryRefreshToken_spec _ _ _ _ Hrefresh) as [q [Htr [Hq _]]].
    cbn [retrying sent world trace log] in Htr. rewrite Htr.
    rewrite !refresh_count_app.
    change (EvLoadTokens :: q)%list with ([EvLoadTokens] ++ q)%list.
    rewrite refresh_count_app. destruct (quiet_counts _ Hq) as [_ ->]. cbn. lia.
  - rewrite Hcall, finish_request_world. cbn [sent world log trace].
    pose proof (tryRefreshToken_spec _ _ _ _ Hrefresh) as [q [Htr [Hq _]]].
    cbn [retrying sent world trace log] in Htr. rewrite Htr.
    rewrite !fetch_count_app.
    change (EvLoadTokens :: q)%list with ([EvLoadTokens] ++ q)%list.
    rewrite fetch_count_app. destruct (quiet_counts _ Hq) as [-> _]. cbn. lia.
  - intro s0. apply request_counts.
Qed.

Lemma C1_witness :
  request_with env_expired user_info_args (fresh_session (Some stored_pair)) =
    finish_request r200_json (sent user_info_args session_refreshed) /\
  fst (request_with env_expired user_info_args (fresh_session (Some stored_pair))) =
    fst (request_with (scripted [r200_json] None) user_info_args (fresh_session None)).
Proof.
  assert (Ha1 : answer env_expired user_info_args (fresh_session (Some stored_pair)) =
                Some r401) by reflexivity.
  assert (Hrefresh :
            tryRefreshToken env_expired
              (retrying user_info_args (fresh_session (Some stored_pair))) =
            (Ok true, session_refreshed)) by (vm_compute; reflexivity).
  assert (Ha2 : answer env_expired user_info_args session_refreshed = Some r200_json)
    by (vm_compute; reflexivity).
  pose proof (C1_refresh_and_replay_once env_expired user_info_args
                (fresh_session (Some stored_pair)) session_refreshed r401 r200_json
                eq_refl Ha1 eq_refl Hrefresh Ha2) as [Hok _].
  destruct (Hok eq_refl) as [Hcall [_ Hsame]].
  split; [exact Hcall |].
  apply Hsame. reflexivity.
Defined.

(** C2, as the specification states it, fails: on a fresh client whose
    first call is answered 401 and finds nothing to refresh from, the
    flag stays set, and the next call that is answered 401 fails without
    running the refresh protocol. *)
Lemma C2_counterexample : ~ per_call_retry_scoping.
Proof.
  intro H.
  pose proof (H env_refused GetUserInfo GetUserInfo user_info_args
                (fresh_session None) r401 eq_refl) as Hc.
  cbv zeta in Hc.
  assert (Ha : answer env_refused user_info_args
                 (snd (call env_refused GetUserInfo (fresh_session None))) = Some r401)
    by (vm_compute; reflexivity).
  specialize (Hc eq_refl Ha eq_refl). vm_compute in Hc. discriminate.
Qed.

(** C2, amended. The allowance is the flag [hasRetriedAuth] of the client
    object, cleared when a request completes successfully: after a call
    whose request returns, the flag is clear, and the next call on the
    same client that is answered 401 on its first attempt runs the
    refresh protocol right after that attempt, once. *)
Theorem C2_allowance_restored_by_success (E : Env) (op op' : Operation)
    (a b : RequestArgs) (s s1 : Session) (v : Payload) (r : Response) :
  request_of op = Some a ->
  call E op s = (Ok v, s1) ->
  request_of op' = Some b ->
  answer E b s1 = Some r ->
  status r = 401 ->
  hasRetriedAuth (this s1) = false /\
  (exists l,
     trace (world (snd (call E op' s1))) =
     (trace (world s1) ++ EvFetch (attempt b s1) :: EvLoadTokens :: l)%list) /\
  refresh_count (trace (world (snd (call E op' s1)))) =
    (refresh_count (trace (world s1)) + 1)%nat.
Proof.
  intros Hop Hprev Hop' Hb H401.
  assert (Hflag : hasRetriedAuth (this s1) = false).
  { rewrite (call_request_of _ _ _ _ Hop) in Hprev.
    destruct (request_with E a s) as [[p|e] s0] eqn:Hreq; cbn [fst snd] in Hprev;
      inversion Hprev; subst.
    apply (request_returns_flag _ _ _ _ _ Hreq). }
  split; [exact Hflag|].
  rewrite (call_request_of _ _ _ _ Hop'). cbn [snd].
  assert (Htrace : exists q tail,
            trace (world (snd (request_with E b s1))) =
            (trace (world s1) ++ EvFetch (attempt b s1) :: EvLoadTokens :: q ++ tail)%list /\
            forallb quiet q = true /\ (tail = [] \/ exists req, tail = [EvFetch req])).
  { rewrite (request_answered _ _ _ _ Hb), H401, Hflag. cbn [Z.eqb Pos.eqb negb andb].
    destruct (tryRefreshToken E (retrying b s1)) as [res s2] eqn:Hr.
    pose proof (tryRefreshToken_flag _ _ _ _ Hr) as Hflag2. cbn in Hflag2.
    pose proof (tryRefreshToken_spec _ _ _ _ Hr) as [q [Htr [Hq _]]].
    cbn [retrying sent world trace log] in Htr.
    rewrite <- app_assoc in Htr. cbn [app] in Htr.
    exists q. destruct res as [[|]|e].
    - exists [EvFetch (attempt b s2)].
      rewrite (request_replay_world _ _ _ Hflag2). cbn [sent world log trace].
      rewrite Htr, <- app_assoc. cbn [app]. eauto.
    - exists []. cbn [snd]. rewrite Htr, app_nil_r. auto.
    - exists []. cbn [snd]. rewrite Htr, app_nil_r. auto. }
  destruct Htrace as [q [tail [Htr [Hq Htail]]]].
  split; [eauto|].
  rewrite Htr.
  change (EvFetch (attempt b s1) :: EvLoadTokens :: q ++ tail)%list
    with ([EvFetch (attempt b s1); EvLoadTokens] ++ q ++ tail)%list.
  rewrite !refresh_count_app. destruct (quiet_counts _ Hq) as [_ ->].
  destruct Htail as [-> | [req ->]]; cbn; lia.
Qed.

Lemma C2_witness :
  refresh_count
    (trace (world (snd (call env_ok_then_refused GetUserInfo session_after_ok)))) =
  (refresh_count (trace (world session_after_ok)) + 1)%nat.
Proof.
  assert (Hprev : call env_ok_then_refused GetUserInfo (fresh_session None) =
                  (Ok (JsonBody (JObject [])), session_after_ok))
    by (vm_compute; reflexivity).
  assert (Hb : answer env_ok_then_refused user_info_args session_after_ok = Some r401)
    by (vm_compute; reflexivity).
  pose proof (C2_allowance_restored_by_success env_ok_then_refused GetUserInfo GetUserInfo
                user_info_args user_info_args (fresh_session None) session_after_ok
                (JsonBody (JObject [])) r401 eq_refl Hprev eq_refl Hb eq_refl)
    as [_ [_ Hcount]].
  exact Hcount.
Defined.

(** C3. Start a refresh from a stored pair [{A, R, T}]. If it succeeds,
    the token endpoint accepted the request made for [R] and answered it
    with some [newTokens]. The run is then: the store is read, the token
    endpoint is called, and one pair is saved, in that order and with
    nothing else done. The saved pair, which is the one the secret store
    holds afterwards, has the access token of [newTokens] and the refresh
    token of [newTokens], or else [R]: [R] is carried forward when the
    answer has no refresh token. The save ended before the client
    changed, its world is the final one, and in the final session the
    client's access token is the access token of [newTokens], its
    configuration and its retry flag being as they were. If the refresh
    does not succeed, also because the save failed, the client is as it
    was: it still has the access token it had. *)
Theorem C3_refresh_replaces_both_tokens (E : Env) (s s' : Session) (r : Result bool)
    (A : option string) (R : string) (T : option Z) :
  keychain (world s) = Some (mkTokenData A R T) ->
  tryRefreshToken E s = (r, s') ->
  (r = Ok true ->
   exists (resp : TokenEndpointResponse) (newTokens : TokenResponse),
     let w1 := log EvLoadTokens (world s) in
     let w2 := log (EvTokenRequest (refresh_form E R)) w1 in
     let pair := refreshed_pair E (mkTokenData A R T) newTokens w2 in
     oauth E (trace w1) (refresh_form E R) = Some resp /\
     token_ok resp = true /\
     token_json resp = Some newTokens /\
     trace (world s') =
       (trace (world s) ++
        [EvLoadTokens; EvTokenRequest (refresh_form E R); EvSaveTokens pair])%list /\
     keychain (world s') = Some pair /\
     accessToken_of pair = access_token newTokens /\
     (refresh_token newTokens = None -> refreshToken_of pair = R) /\
     (forall R' : string,
        refresh_token newTokens = Some R' -> R' <> EmptyString ->
        refreshToken_of pair = R') /\
     saveTokens E pair w2 = (Ok tt, world s') /\
     accessToken (this s') = access_token newTokens /\
     config (this s') = config (this s) /\
     hasRetriedAuth (this s') = hasRetriedAuth (this s)) /\
  (r <> Ok true ->
   this s' = this s /\ accessToken (this s') = accessToken (this s)).
Proof.
  intros Hstored Hrun.
  pose proof (tryRefreshToken_spec _ _ _ _ Hrun) as [l [Htr [Hq Hcases]]].
  split.
  - intro Hr. subst r.
    destruct Hcases as [[Hf _] | [_ [tokens [nt [resp Hs]]]]]; [discriminate|].
    cbn zeta in Hs. destruct Hs as [Hk [_ [Ho [Hrok [Hj [Hsave Hthis]]]]]].
    rewrite Hstored in Hk. inversion Hk; subst tokens; clear Hk.
    cbn [refreshToken_of] in *.
    exists resp, nt. cbn zeta.
    pose proof (saveTokens_spec _ _ _ _ _ Hsave) as [Htr3 Hkc].
    split; [exact Ho |]. split; [exact Hrok |]. split; [exact Hj |].
    split; [rewrite Htr3; cbn [log trace]; rewrite <- !app_assoc; reflexivity |].
    split; [apply Hkc; reflexivity |].
    split; [reflexivity |].
    split; [intro Hnone; unfold refreshed_pair; rewrite Hnone; reflexivity |].
    split.
    { intros R' Hsome Hne. unfold refreshed_pair. rewrite Hsome.
      cbn [or_else refreshToken_of]. unfold truthy_string.
      destruct (String.eqb_spec R' EmptyString) as [Heq|_]; [contradiction | reflexivity]. }
    split; [exact Hsave |].
    rewrite Hthis. unfold set_accessToken. cbn [accessToken config hasRetriedAuth].
    repeat split.
  - intro Hr. destruct Hcases as [[_ Hthis] | [Ht _]]; [| contradiction].
    split; [exact Hthis | rewrite Hthis; reflexivity].
Qed.

Lemma C3_witness :
  accessToken (this (fresh_session (Some stored_pair))) = Some "A1" /\
  (accessToken (this (snd (tryRefreshToken (scripted [] new_access_only)
                             (fresh_session (Some stored_pair))))) = Some "A2" /\
   keychain (world (snd (tryRefreshToken (scripted [] new_access_only)
                           (fresh_session (Some stored_pair))))) =
     Some (mkTokenData (Some "A2") "R1" (Some 1700003600000))) /\
  (accessToken (this (snd (tryRefreshToken (scripted [] empty_answer)
                             (fresh_session (Some stored_pair))))) = None /\
   keychain (world (snd (tryRefreshToken (scripted [] empty_answer)
                           (fresh_session (Some stored_pair))))) =
     Some (mkTokenData None "R1" None)).
Proof.
  assert (Hrun : forall answer,
            answer = new_access_only \/ answer = empty_answer ->
            tryRefreshToken (scripted [] answer) (fresh_session (Some stored_pair)) =
            (Ok true,
             snd (tryRefreshToken (scripted [] answer) (fresh_session (Some stored_pair)))))
    by (intros answer [-> | ->]; vm_compute; reflexivity).
  assert (Hall : forall answer newTokens,
            answer = new_access_only \/ answer = empty_answer ->
            answer = Some (mkTokenEndpointResponse true EmptyString (Some newTokens)) ->
            accessToken (this (snd (tryRefreshToken (scripted [] answer)
                                      (fresh_session (Some stored_pair))))) =
              access_token newTokens /\
            keychain (world (snd (tryRefreshToken (scripted [] answer)
                                    (fresh_session (Some stored_pair))))) =
              Some (refreshed_pair (scripted [] answer) stored_pair newTokens
                      (log (EvTokenRequest (refresh_form (scripted [] answer) "R1"))
                         (log EvLoadTokens (world (fresh_session (Some stored_pair))))))).
  { intros answer newTokens Hcase Hanswer.
    pose proof (C3_refresh_replaces_both_tokens (scripted [] answer)
                  (fresh_session (Some stored_pair)) _ (Ok true)
                  (Some "A1") "R1" (Some 1600000000000) eq_refl (Hrun answer Hcase))
      as [Hok _].
    destruct (Hok eq_refl) as [resp [nt H]]. cbn zeta in H.
    destruct H as [Ho [_ [Hj [_ [Hk [_ [_ [_ [_ [Hadopt _]]]]]]]]]].
    cbn [oauth scripted] in Ho. rewrite Hanswer in Ho. inversion Ho; subst resp.
    cbn [token_json] in Hj. inversion Hj; subst nt.
    split; [exact Hadopt | exact Hk]. }
  split; [reflexivity |].
  split.
  - destruct (Hall new_access_only _ (or_introl eq_refl) eq_refl) as [Hadopt Hk].
    split; [exact Hadopt | rewrite Hk; reflexivity].
  - destruct (Hall empty_answer _ (or_intror eq_refl) eq_refl) as [Hadopt Hk].
    split; [exact Hadopt | rewrite Hk; reflexivity].
Defined.

(** C4. Take any operation that issues a request, and a response whose
    status is neither 2xx nor 401 nor 403. Whenever an attempt of the
    operation is answered by that response (the only attempt of the
    call, or the replay made after a first 401 and a successful
    refresh), the call fails with an [InoreaderClientError] whose message
    is ["API request failed: <status> <reason phrase>"], and the session
    it leaves is the one of that attempt: nothing is sent or refreshed
    after it. *)
Theorem C4_other_failures_are_client_errors (E : Env) (op : Operation)
    (a : RequestArgs) (r : Response) :
  request_of op = Some a ->
  ok r = false ->
  status r <> 401 ->
  status r <> 403 ->
  exists msg : string,
    msg = "API request failed: " ++ String_of_Z (status r) ++ " " ++ statusText r /\
    includes (String_of_Z (status r)) msg = true /\
    includes (statusText r) msg = true /\
    (forall s : Session,
       answer E a s = Some r ->
       call E op s = (Throw (InoreaderClientError msg), sent a s)) /\
    (forall (s s2 : Session) (r1 : Response),
       hasRetriedAuth (this s) = false ->
       answer E a s = Some r1 ->
       status r1 = 401 ->
       tryRefreshToken E (retrying a s) = (Ok true, s2) ->
       answer E a s2 = Some r ->
       call E op s = (Throw (InoreaderClientError msg), sent a s2)).
Proof.
  intros Hop Hok H401 H403.
  apply Z.eqb_neq in H401, H403.
  assert (Hfinish : forall x : Session,
            finish_request r x =
            (Throw (InoreaderClientError
                      ("API request failed: " ++ String_of_Z (status r) ++ " " ++
                       statusText r)), x)).
  { intro x. unfold finish_request. rewrite H401, H403, Hok. reflexivity. }
  exists ("API request failed: " ++ String_of_Z (status r) ++ " " ++ statusText r).
  split; [reflexivity | split; [| split; [| split]]].
  - apply includes_app.
  - rewrite <- !append_assoc. apply includes_end.
  - intros s Ha.
    rewrite (call_request_of _ _ _ _ Hop), (request_answered _ _ _ _ Ha), H401.
    cbn [andb]. rewrite Hfinish. reflexivity.
  - intros s s2 r1 Hfresh Ha1 Hr1 Hrefresh Ha2.
    assert (Hflag2 : hasRetriedAuth (this s2) = true).
    { rewrite (tryRefreshToken_flag _ _ _ _ Hrefresh). reflexivity. }
    rewrite (call_request_of _ _ _ _ Hop), (request_answered _ _ _ _ Ha1), Hr1, Hfresh.
    cbn [Z.eqb Pos.eqb negb andb].
    rewrite Hrefresh, (request_replay _ _ _ Hflag2), Ha2, Hfinish. reflexivity.
Qed.

Lemma C4_witness :
  exists msg : string,
    includes "500" msg = true /\
    call (scripted [r500] None) (AddStar "item-1") (fresh_session None) =
      (Throw (InoreaderClientError msg), sent star_args (fresh_session None)).
Proof.
  assert (Hne1 : status r500 <> 401) by discriminate.
  assert (Hne3 : status r500 <> 403) by discriminate.
  destruct (C4_other_failures_are_client_errors (scripted [r500] None) (AddStar "item-1")
              star_args r500 eq_refl eq_refl Hne1 Hne3)
    as [msg [_ [Hinc [_ [Hcall _]]]]].
  exists msg. split; [exact Hinc |].
  apply Hcall. reflexivity.
Defined.

(** C5, as the specification states it, fails: a 2xx response need not
    give a result at all. A 204 response that announces JSON has no body
    to decode; the call then throws the decoder's error, so what it gives
    is of none of the three kinds, whichever rule is tried first. *)
Lemma C5_counterexample : ~ three_kinds_of_success.
Proof.
  intro H.
  assert (Ha : answer (scripted [r204_json] None) user_info_args (fresh_session None) =
               Some r204_json) by reflexivity.
  pose proof (H (scripted [r204_json] None) user_info_args (fresh_session None)
                r204_json Ha eq_refl) as Hc.
  cbv zeta in Hc.
  assert (Hthrown :
            fst (request_with (scripted [r204_json] None) user_info_args
                   (fresh_session None)) =
            Throw (mkExn ClsSyntaxError "Failed to parse JSON"))
    by (vm_compute; reflexivity).
  rewrite Hthrown in Hc.
  destruct Hc as [[_ [j Hj]] | [[_ He] | [_ [_ Ht]]]]; discriminate.
Qed.

(** C5, amended. The rules are tried in order, JSON first. A call whose
    attempt is answered by a 2xx response returns the decoded body when
    the content type includes ["application/json"] and the body decodes;
    when the content type does not include it, nothing if the status is
    204 or 205 or the text is empty, and the text otherwise. The call
    throws only under a JSON content type whose body does not decode. *)
Theorem C5_success_is_json_empty_or_text (E : Env) (a : RequestArgs) (s : Session)
    (r : Response) :
  answer E a s = Some r ->
  ok r = true ->
  let result := fst (request_with E a s) in
  let json := includes "application/json" (nullish (content_type r) EmptyString) in
  (json = true -> forall j : Json, body_json r = Some j -> result = Ok (JsonBody j)) /\
  (json = false ->
   status r = 204 \/ status r = 205 \/ body_text r = EmptyString ->
   result = Ok Empty) /\
  (json = false ->
   status r <> 204 -> status r <> 205 -> body_text r <> EmptyString ->
   result = Ok (TextBody (body_text r))) /\
  (forall e : Exn, result = Throw e -> json = true /\ body_json r = None).
Proof.
  intros Ha Hok result json. subst result json.
  assert (Hne : (status r =? 401) = false) by (unfold ok in Hok; lia).
  rewrite (request_answered _ _ _ _ Ha), Hne. cbn [andb].
  rewrite (finish_request_ok _ _ Hok). cbn [fst].
  unfold decode_response, ret, throw, truthy_string.
  destruct (includes "application/json" (nullish (content_type r) EmptyString)).
  - split; [| split; [| split]]; try discriminate.
    + intros _ j Hj. rewrite Hj. reflexivity.
    + intros e He. split; [reflexivity|].
      destruct (body_json r); [discriminate | reflexivity].
  - split; [| split; [| split]]; try discriminate.
    + intros _ [H | [H | H]].
      * rewrite H. reflexivity.
      * rewrite H. reflexivity.
      * rewrite H. destruct ((status r =? 204) || (status r =? 205)); reflexivity.
    + intros _ H204 H205 Htext.
      apply Z.eqb_neq in H204, H205. rewrite H204, H205. cbn [orb].
      apply String.eqb_neq in Htext. rewrite Htext. reflexivity.
    + intros e. repeat (destruct_innermost; cbn); discriminate.
Qed.

Lemma C5_witness :
  fst (request_with (scripted [r200_json] None) user_info_args (fresh_session None)) =
    Ok (JsonBody (JObject [])) /\
  fst (request_with (scripted [r204] None) user_info_args (fresh_session None)) =
    Ok Empty /\
  fst (request_with (scripted [r200_text] None) user_info_args (fresh_session None)) =
    Ok (TextBody "OK").
Proof.
  assert (Hj : answer (scripted [r200_json] None) user_info_args (fresh_session None) =
               Some r200_json) by reflexivity.
  assert (He : answer (scripted [r204] None) user_info_args (fresh_session None) =
               Some r204) by reflexivity.
  assert (Ht : answer (scripted [r200_text] None) user_info_args (fresh_session None) =
               Some r200_text) by reflexivity.
  pose proof (C5_success_is_json_empty_or_text _ _ _ _ Hj eq_refl) as [H1 _].
  pose proof (C5_success_is_json_empty_or_text _ _ _ _ He eq_refl) as [_ [H2 _]].
  pose proof (C5_success_is_json_empty_or_text _ _ _ _ Ht eq_refl) as [_ [_ [H3 _]]].
  split; [| split].
  - apply H1; reflexivity.
  - apply H2; [reflexivity | left; reflexivity].
  - apply H3; [reflexivity | discriminate | discriminate | discriminate].
Defined.

(** C6. A stream-page call whose count is absent or at least 1 sends, as
    the parameter [n] of its first request, the count (20 when absent)
    clamped to the range 1..1000; a count of 5000 sends 1000. The tools
    [get_articles] and [get_starred_articles] reject a count of 0 or less
    by their schema, leaving the server state untouched, and every count
    that passes the schema is at least 1. For any count at all the
    parameter is the smaller of the count (20 when absent) and 1000. *)
Theorem C6_page_size (E : Env) :
  (forall (streamId : string) (options : StreamOptions) (s : Session),
     (forall n, count options = Some n -> 1 <= n) ->
     exists (req : HttpRequest) (l : list Event),
       trace (world (snd (getStreamContents E streamId options s))) =
         (trace (world s) ++ EvFetch req :: l)%list /\
       params_lookup "n" (req_search req) =
         Some (String_of_Z (spec_page_size (count options))) /\
       1 <= spec_page_size (count options) <= 1000) /\
  spec_page_size None = 20 /\
  params_lookup "n" (stream_params page_of_5000) = Some "1000" /\
  (forall (n : Z) (stream_id : option string) (unread_only : option bool)
          (st : ServerState),
     n <= 0 ->
     get_articles E stream_id (Some n) unread_only st = (InvalidArguments, st) /\
     get_starred_articles E (Some n) st = (InvalidArguments, st)) /\
  (forall (raw : option Z) (c : Z), count_schema raw = Some c -> 1 <= c) /\
  (forall options : StreamOptions,
     params_lookup "n" (stream_params options) =
       Some (String_of_Z (Math_min (nullish (count options) 20) 1000)) /\
     Math_min (nullish (count options) 20) 1000 <= 1000).
Proof.
  split; [| split; [| split; [| split; [| split]]]].
  - intros streamId options s Hpos.
    pose (a := mkRequestArgs "GET" ("/stream/contents/" ++ encodeURIComponent streamId)
                 (Some (stream_params options)) None).
    destruct (request_trace E a s) as [l [Htr _]].
    exists (attempt a s), l. split; [exact Htr|].
    assert (Hmin : Math_min (nullish (count options) 20) 1000 =
                   spec_page_size (count options)).
    { unfold Math_min, spec_page_size. destruct (count options) as [n|]; cbn [nullish].
      - specialize (Hpos n eq_refl). lia.
      - lia. }
    split.
    + unfold attempt, a, build_request.
      cbn [arg_method arg_endpoint arg_params arg_body req_search].
      rewrite stream_params_n, Hmin. reflexivity.
    + unfold spec_page_size. lia.
  - reflexivity.
  - reflexivity.
  - intros n stream_id unread_only st Hn.
    unfold get_articles, get_starred_articles, count_schema.
    assert (H : (1 <=? n) && (n <=? 100) = false) by lia.
    rewrite H. split; reflexivity.
  - intros raw c Hc. apply count_schema_range in Hc. lia.
  - intro options. split.
    + unfold stream_params.
      destruct (truthy (continuation options)), (truthy (excludeTarget options)),
        (nullish (includeAllItems options) false); reflexivity.
    + unfold Math_min. lia.
Qed.

Lemma C6_witness :
  exists (req : HttpRequest) (l : list Event),
    trace (world (snd (getStreamContents (scripted [r200_json] None) "feed/1"
                         page_of_5000 (fresh_session None)))) =
      (trace (world (fresh_session None)) ++ EvFetch req :: l)%list /\
    params_lookup "n" (req_search req) = Some "1000".
Proof.
  destruct (C6_page_size (scripted [r200_json] None)) as [H _].
  assert (Hpos : forall n, count page_of_5000 = Some n -> 1 <= n).
  { intros n Hn. inversion Hn. lia. }
  destruct (H "feed/1" page_of_5000 (fresh_session None) Hpos)
    as [req [l [Htr [Hn _]]]].
  exists req, l. split; [exact Htr | exact Hn].
Defined.

(** C7. [editSubscription] with no truthy title, add-folder or
    remove-folder (none supplied, or supplied empty) throws the
    [InoreaderClientError] that asks for an option and leaves the session
    as it was: nothing is sent. With the same non-empty folder as add and
    as remove target it throws the [InoreaderClientError] about the same
    folder, again leaving the session as it was. *)
Theorem C7_edit_subscription_checks_locally (E : Env) (subscriptionId : string)
    (options : EditOptions) (s : Session) :
  (truthy (title options) = false ->
   truthy (addToFolder options) = false ->
   truthy (removeFromFolder options) = false ->
   editSubscription E subscriptionId options s =
     (Throw (InoreaderClientError NO_OPTION), s)) /\
  (forall f : string,
     f <> EmptyString ->
     addToFolder options = Some f ->
     removeFromFolder options = Some f ->
     editSubscription E subscriptionId options s =
       (Throw (InoreaderClientError SAME_FOLDER), s)).
Proof.
  split.
  - intros Ht Ha Hr. unfold editSubscription. rewrite Ht, Ha, Hr. reflexivity.
  - intros f Hf Ha Hr. unfold editSubscription. rewrite Ha, Hr.
    cbn [truthy nullish]. unfold truthy_string.
    apply String.eqb_neq in Hf. rewrite Hf, String.eqb_refl.
    cbn [negb andb]. rewrite andb_false_r. reflexivity.
Qed.

Lemma C7_witness :
  editSubscription (scripted [] None) "feed/1" (mkEditOptions None None None)
    (fresh_session None) =
    (Throw (InoreaderClientError NO_OPTION), fresh_session None) /\
  editSubscription (scripted [] None) "feed/1"
    (mkEditOptions (Some "News") (Some "Tech") (Some "Tech")) (fresh_session None) =
    (Throw (InoreaderClientError SAME_FOLDER), fresh_session None).
Proof.
  assert (Hne : "Tech" <> EmptyString) by discriminate.
  pose proof (C7_edit_subscription_checks_locally (scripted [] None) "feed/1"
                (mkEditOptions None None None) (fresh_session None)) as [Hnone _].
  pose proof (C7_edit_subscription_checks_locally (scripted [] None) "feed/1"
                (mkEditOptions (Some "News") (Some "Tech") (Some "Tech"))
                (fresh_session None)) as [_ Hsame].
  split.
  - apply Hnone; reflexivity.
  - apply (Hsame "Tech" Hne); reflexivity.
Defined.

(** C8. [markAsUnread] of an empty list returns and leaves the session,
    and so the trace, as it was; and once the tool [mark_as_unread] has
    its client, its reply for an empty list is the success object whose
    message counts 0 items, with no error flag and nothing done after the
    client was obtained. *)
Theorem C8_mark_unread_of_nothing (E : Env) :
  (forall s : Session, markAsUnread E [] s = (Ok tt, s)) /\
  (forall (st st1 : ServerState) (c : InoreaderClient),
     getClient E st = (Ok c, st1) ->
     mark_as_unread E [] st =
       (Reply (mkToolResult
                 (JObject [("success", JBool true);
                           ("message", JString "Marked 0 items as unread")])
                 false),
        st1)).
Proof.
  split.
  - intro s. reflexivity.
  - intros st st1 c Hc.
    assert (Hslot : client st1 = Some c).
    { revert Hc. unfold getClient. destruct (client st) as [c0|] eqn:Hcl.
      - intro H; inversion H; subst. exact Hcl.
      - destruct (createClient E (server_world st)) as [[c1|e] w];
          intro H; inversion H; subst; reflexivity. }
    unfold mark_as_unread, handler.
    cbv beta iota zeta delta [bind ret on_client]. rewrite Hc.
    cbn. destruct st1 as [slot w]. cbn in Hslot. subst slot. reflexivity.
Qed.

Lemma C8_witness :
  mark_as_unread (scripted [] None) [] server_ready =
    (Reply (mkToolResult
              (JObject [("success", JBool true);
                        ("message", JString "Marked 0 items as unread")])
              false),
     server_ready).
Proof.
  destruct (C8_mark_unread_of_nothing (scripted [] None)) as [_ H].
  apply (H server_ready server_ready (new_InoreaderClient example_config (Some "A1"))).
  reflexivity.
Defined.

(** C9. [formatArticle] sets [isRead] exactly when the categories hold
    the read marker and [isStarred] exactly when they hold the starred
    marker, so read and not starred gives true and false. A summary of
    more than 500 characters becomes its first 500 characters followed by
    ["..."]. A summary of 500 characters or fewer keeps its text: the
    summary key holds it unchanged, and is left out when the text is
    empty. *)
Theorem C9_format_article (item : StreamItem) :
  (isRead (formatArticle item) = true <-> In STATE_READ (categories item)) /\
  (isStarred (formatArticle item) = true <-> In STATE_STARRED (categories item)) /\
  (In STATE_READ (categories item) ->
   ~ In STATE_STARRED (categories item) ->
   isRead (formatArticle item) = true /\ isStarred (formatArticle item) = false) /\
  (forall sm : ItemSummary,
     summary item = Some sm ->
     (500 < String.length (content sm))%nat ->
     article_summary (formatArticle item) =
       Some (substring 0 500 (content sm) ++ "...") /\
     String.length (substring 0 500 (content sm)) = 500%nat /\
     prefix (substring 0 500 (content sm)) (content sm) = true) /\
  (forall sm : ItemSummary,
     summary item = Some sm ->
     (String.length (content sm) <= 500)%nat ->
     nullish (article_summary (formatArticle item)) EmptyString = content sm /\
     (content sm <> EmptyString -> article_summary (formatArticle item) = Some (content sm))).
Proof.
  split; [| split; [| split; [| split]]].
  - apply array_includes_In.
  - apply array_includes_In.
  - intros Hr Hs. split.
    + apply array_includes_In, Hr.
    + cbn [formatArticle isStarred].
      destruct (array_includes STATE_STARRED (categories item)) eqn:H; [|reflexivity].
      apply array_includes_In in H. contradiction.
  - intros sm Hsm Hlen. cbn [formatArticle article_summary]. rewrite Hsm.
    assert (Htruthy : truthy_string (content sm) = true).
    { unfold truthy_string. revert Hlen.
      destruct (content sm); cbn; intro Hlen; [lia | reflexivity]. }
    assert (Hlong : (500 <? Z.of_nat (String.length (content sm))) = true) by lia.
    rewrite Htruthy, Hlong. split; [reflexivity|]. split.
    + apply substring_0_length. lia.
    + apply substring_0_prefix.
  - intros sm Hsm Hlen. cbn [formatArticle article_summary]. rewrite Hsm.
    assert (Hshort : (500 <? Z.of_nat (String.length (content sm))) = false) by lia.
    rewrite Hshort. unfold truthy_string.
    destruct (content sm) as [|c rest] eqn:Hc; cbn.
    + split; [reflexivity | intro H; contradiction].
    + split; reflexivity.
Qed.

Lemma C9_witness :
  isRead (formatArticle (example_item [STATE_READ] (Some (letters 600)))) = true /\
  isStarred (formatArticle (example_item [STATE_READ] (Some (letters 600)))) = false /\
  article_summary (formatArticle (example_item [STATE_READ] (Some (letters 600)))) =
    Some (substring 0 500 (letters 600) ++ "...") /\
  article_summary (formatArticle (example_item [] (Some (letters 500)))) =
    Some (letters 500).
Proof.
  pose proof (C9_format_article (example_item [STATE_READ] (Some (letters 600))))
    as [_ [_ [Hflags [Hlong _]]]].
  pose proof (C9_format_article (example_item [] (Some (letters 500))))
    as [_ [_ [_ [_ Hshort]]]].
  assert (Hin : In STATE_READ (categories (example_item [STATE_READ] (Some (letters 600)))))
    by (left; reflexivity).
  assert (Hout : ~ In STATE_STARRED
                     (categories (example_item [STATE_READ] (Some (letters 600))))).
  { intros [H | []]. discriminate H. }
  assert (H600 : (500 < String.length (content (mkItemSummary "ltr" (letters 600))))%nat)
    by (vm_compute; lia).
  assert (H500 : (String.length (content (mkItemSummary "ltr" (letters 500))) <= 500)%nat)
    by (vm_compute; lia).
  assert (Hne : content (mkItemSummary "ltr" (letters 500)) <> EmptyString)
    by discriminate.
  destruct (Hflags Hin Hout) as [Hr Hs].
  destruct (Hlong (mkItemSummary "ltr" (letters 600)) eq_refl H600) as [Hl _].
  destruct (Hshort (mkItemSummary "ltr" (letters 500)) eq_refl H500) as [_ Hsh].
  split; [exact Hr |]. split; [exact Hs |]. split; [exact Hl | exact (Hsh Hne)].
Defined.

(** C10. [markAsRead] with an absent or empty id list and no stream id
    (absent, or empty) returns and leaves the session, and so the trace,
    as it was. With a non-empty id list the call is the same whatever the
    stream id and the timestamp are: it issues the one [/edit-tag]
    request that adds the read marker to the ids. *)
Theorem C10_mark_read_dispatch (E : Env) :
  (forall (itemIds : option (list string)) (streamId : option string)
          (timestamp : option Z) (s : Session),
     itemIds = None \/ itemIds = Some [] ->
     truthy streamId = false ->
     markAsRead E itemIds streamId timestamp s = (Ok tt, s)) /\
  (forall (ids : list string) (streamId streamId' : option string)
          (timestamp timestamp' : option Z) (s : Session),
     ids <> [] ->
     markAsRead E (Some ids) streamId timestamp s =
       markAsRead E (Some ids) streamId' timestamp' s /\
     request_of (MarkAsRead (Some ids) streamId timestamp) =
       Some (mkRequestArgs "POST" "/edit-tag" None
               (Some (BodyParams (("a", STATE_READ) :: map (fun id => ("i", id)) ids))))).
Proof.
  split.
  - intros itemIds streamId timestamp s Hids Hsid.
    unfold markAsRead. rewrite Hsid.
    destruct Hids as [-> | ->]; reflexivity.
  - intros ids streamId streamId' timestamp timestamp' s Hne.
    assert (Hlen : (0 <? Z.of_nat (List.length ids)) = true).
    { destruct ids; [contradiction | apply Z.ltb_lt; cbn [List.length]; lia]. }
    split.
    + unfold markAsRead. rewrite Hlen. reflexivity.
    + cbn [request_of]. rewrite Hlen. cbn [nullish].
      rewrite append_ids_map. reflexivity.
Qed.

Lemma C10_witness :
  markAsRead (scripted [] None) (Some []) None (Some 1700000000) (fresh_session None) =
    (Ok tt, fresh_session None) /\
  markAsRead (scripted [r200_text] None) (Some ["item-1"; "item-2"]) (Some "feed/1")
    (Some 1700000000) (fresh_session None) =
  markAsRead (scripted [r200_text] None) (Some ["item-1"; "item-2"]) None None
    (fresh_session None).
Proof.
  assert (Hne : ["item-1"; "item-2"] <> @nil string) by discriminate.
  destruct (C10_mark_read_dispatch (scripted [] None)) as [Hnoop _].
  destruct (C10_mark_read_dispatch (scripted [r200_text] None)) as [_ Hsame].
  split.
  - apply Hnoop; [right; reflexivity | reflexivity].
  - apply (Hsame ["item-1"; "item-2"] (Some "feed/1") None (Some 1700000000) None
             (fresh_session None) Hne).
Defined.

(** ** Further properties of the program *)

Section MoreFacts.
Variable E : Env.

Lemma finish_request_session r x :
  snd (finish_request r x) = x \/
  snd (finish_request r x) = mkSession (set_hasRetriedAuth false (this x)) (world x).
Proof.
  destruct (ok r) eqn:Hok.
  - right. rewrite (finish_request_ok _ _ Hok). reflexivity.
  - left. unfold finish_request. rewrite Hok. cbn [negb]. unfold throw.
    repeat (destruct_innermost; cbn); reflexivity.
Qed.

Lemma finish_request_throws_session r x e y :
  finish_request r x = (Throw e, y) ->
  ok r = false -> y = x.
Proof.
  intros H Hok. revert H. unfold finish_request. rewrite Hok. cbn [negb].
  unfold throw.
  repeat (destruct_innermost; cbn); intro H; inversion H; reflexivity.
Qed.

(** The events of one run of the refresh protocol. *)
Lemma tryRefreshToken_shape s r s' :
  tryRefreshToken E s = (r, s') ->
  exists l,
    trace (world s') = (trace (world s) ++ EvLoadTokens :: l)%list /\
    (l = [] \/ (exists f, l = [EvTokenRequest f]) \/
     (exists f p, l = [EvTokenRequest f; EvSaveTokens p])).
Proof.
  cbv beta iota zeta delta [tryRefreshToken bind ret throw try_catch liftW update_this now].
  destruct (loadTokens_spec E (world s)) as [ld [Hld Hkc]]. rewrite Hld.
  cbn [this world].
  destruct ld as [tokens|].
  2:{ intro H; inversion H; subst; clear H. exists []. cbn. auto. }
  destruct (truthy_string (refreshToken_of tokens)) eqn:Htr; cbn [negb this world].
  2:{ intro H; inversion H; subst; clear H. exists []. cbn. auto. }
  destruct (refreshAccessToken E (refreshToken_of tokens) (log EvLoadTokens (world s)))
    as [[nt|e] w2] eqn:Href.
  2:{ apply refreshAccessToken_spec in Href. destruct Href as [_ [Hw _]].
      intro H; inversion H; subst; clear H. cbn [this world].
      destruct Hw as [->| ->]; eexists;
        (split; [cbn; rewrite <- ?app_assoc; reflexivity |]); cbn; eauto. }
  apply refreshAccessToken_spec in Href. destruct Href as [_ [_ Hok]].
  destruct (Hok nt eq_refl) as [-> _]. clear Hok.
  cbn [this world].
  match goal with
  | |- context [saveTokens E ?p ?w] =>
      destruct (saveTokens E p w) as [[[]|e] w3] eqn:Hsave
  end;
    pose proof (saveTokens_spec _ _ _ _ _ Hsave) as [Htr3 _];
    intro H; inversion H; subst; clear H; cbn [this world];
    eexists; (split; [rewrite Htr3; cbn; rewrite <- !app_assoc; reflexivity |]);
    right; right; cbn [app]; eauto.
Qed.

End MoreFacts.

(** X1. Whatever the operation, an attempt that is answered 403 makes the
    call fail with the Authentication error about the missing
    entitlement, in the session of that attempt: the refresh protocol is
    not run and nothing is sent afterwards, on the first attempt (even
    with the allowance unused) and on the replay alike. The message
    differs from the one for an expired token. *)
Theorem forbidden_is_never_refreshed (E : Env) (op : Operation) (a : RequestArgs)
    (r : Response) :
  request_of op = Some a ->
  status r = 403 ->
  (forall s : Session,
     answer E a s = Some r ->
     call E op s = (Throw (AuthenticationError AUTH_FORBIDDEN), sent a s)) /\
  (forall (s s2 : Session) (r1 : Response),
     hasRetriedAuth (this s) = false ->
     answer E a s = Some r1 ->
     status r1 = 401 ->
     tryRefreshToken E (retrying a s) = (Ok true, s2) ->
     answer E a s2 = Some r ->
     call E op s = (Throw (AuthenticationError AUTH_FORBIDDEN), sent a s2)) /\
  AUTH_FORBIDDEN <> AUTH_EXPIRED.
Proof.
  intros Hop H403.
  assert (Hfinish : forall x : Session,
            finish_request r x = (Throw (AuthenticationError AUTH_FORBIDDEN), x)).
  { intro x. unfold finish_request. rewrite H403. reflexivity. }
  split; [| split].
  - intros s Ha.
    rewrite (call_request_of _ _ _ _ Hop), (request_answered _ _ _ _ Ha), H403.
    cbn [Z.eqb Pos.eqb andb]. rewrite Hfinish. reflexivity.
  - intros s s2 r1 Hfresh Ha1 Hr1 Hrefresh Ha2.
    assert (Hflag2 : hasRetriedAuth (this s2) = true).
    { rewrite (tryRefreshToken_flag _ _ _ _ Hrefresh). reflexivity. }
    rewrite (call_request_of _ _ _ _ Hop), (request_answered _ _ _ _ Ha1), Hr1, Hfresh.
    cbn [Z.eqb Pos.eqb negb andb].
    rewrite Hrefresh, (request_replay _ _ _ Hflag2), Ha2, Hfinish. reflexivity.
  - discriminate.
Qed.

Lemma forbidden_is_never_refreshed_witness :
  call (scripted [r403] new_access_only) (AddStar "item-1")
    (fresh_session (Some stored_pair)) =
  (Throw (AuthenticationError AUTH_FORBIDDEN),
   sent star_args (fresh_session (Some stored_pair))).
Proof.
  pose proof (forbidden_is_never_refreshed (scripted [r403] new_access_only)
                (AddStar "item-1") star_args r403 eq_refl eq_refl) as [H _].
  apply H. reflexivity.
Defined.

(** X2. When the refresh that follows a first 401 fails, the call fails
    with the Authentication error and leaves [hasRetriedAuth] set. From
    then on a call that is answered 401 fails after its single attempt,
    without a refresh, and a call that is refused or not answered leaves
    the flag set: only a 2xx answer clears it. *)
Theorem failed_refresh_blocks_later_refreshes (E : Env) (a : RequestArgs)
    (s s2 : Session) (r : Response) :
  hasRetriedAuth (this s) = false ->
  answer E a s = Some r ->
  status r = 401 ->
  tryRefreshToken E (retrying a s) = (Ok false, s2) ->
  request_with E a s = (Throw (AuthenticationError AUTH_EXPIRED), s2) /\
  hasRetriedAuth (this s2) = true /\
  (forall (b : RequestArgs) (r' : Response),
     answer E b s2 = Some r' ->
     status r' = 401 ->
     request_with E b s2 = (Throw (AuthenticationError AUTH_EXPIRED), sent b s2)) /\
  (forall (b : RequestArgs) (s3 : Session),
     hasRetriedAuth (this s3) = true ->
     (forall r', answer E b s3 = Some r' -> ok r' = false) ->
     hasRetriedAuth (this (snd (request_with E b s3))) = true).
Proof.
  intros Hfresh Ha H401 Hrefresh.
  assert (Hflag2 : hasRetriedAuth (this s2) = true).
  { rewrite (tryRefreshToken_flag _ _ _ _ Hrefresh). reflexivity. }
  split; [| split; [exact Hflag2 | split]].
  - rewrite (request_answered _ _ _ _ Ha), H401, Hfresh. cbn [Z.eqb Pos.eqb negb andb].
    rewrite Hrefresh. reflexivity.
  - intros b r' Hb Hr'. rewrite (request_replay _ _ _ Hflag2), Hb.
    unfold finish_request. rewrite Hr'. reflexivity.
  - intros b s3 Hflag3 Hbad. rewrite (request_replay _ _ _ Hflag3).
    destruct (answer E b s3) as [r'|] eqn:Hb; [| exact Hflag3].
    specialize (Hbad r' eq_refl).
    destruct (finish_request r' (sent b s3)) as [[p|e] y] eqn:Hf.
    + apply finish_request_returns in Hf. destruct Hf as [Hok _]. congruence.
    + apply finish_request_throws_session in Hf; [| exact Hbad]. subst y. exact Hflag3.
Qed.

Lemma failed_refresh_blocks_later_refreshes_witness :
  request_with env_refused user_info_args
    (snd (request_with env_refused user_info_args (fresh_session None))) =
  (Throw (AuthenticationError AUTH_EXPIRED),
   sent user_info_args
     (snd (request_with env_refused user_info_args (fresh_session None)))).
Proof.
  assert (Ha : answer env_refused user_info_args (fresh_session None) = Some r401)
    by reflexivity.
  assert (Hr : tryRefreshToken env_refused (retrying user_info_args (fresh_session None)) =
               (Ok false, snd (request_with env_refused user_info_args (fresh_session None))))
    by (vm_compute; reflexivity).
  pose proof (failed_refresh_blocks_later_refreshes env_refused user_info_args
                (fresh_session None) _ r401 eq_refl Ha eq_refl Hr) as [_ [_ [H _]]].
  apply (H user_info_args r401); [vm_compute; reflexivity | reflexivity].
Defined.

(** X3. An attempt whose [fetch] is rejected (a network failure) ends
    the call at once with that rejection, which is not an
    [InoreaderClientError]: no refresh and no second attempt, whatever
    the operation and the state of the flag, which stays as it was. *)
Theorem network_failure_is_not_retried (E : Env) (op : Operation) (a : RequestArgs)
    (s : Session) :
  request_of op = Some a ->
  answer E a s = None ->
  exists e : Exn,
    call E op s = (Throw e, sent a s) /\
    is_client_error e = false /\
    fetch_count (trace (world (sent a s))) = (fetch_count (trace (world s)) + 1)%nat /\
    refresh_count (trace (world (sent a s))) = refresh_count (trace (world s)).
Proof.
  intros Hop Ha. exists (mkExn ClsTypeError "fetch failed").
  split; [| split; [reflexivity | split]].
  - rewrite (call_request_of _ _ _ _ Hop), (request_unanswered _ _ _ Ha). reflexivity.
  - cbn [sent world log trace]. rewrite fetch_count_app. reflexivity.
  - cbn [sent world log trace]. rewrite refresh_count_app. cbn. lia.
Qed.

Lemma network_failure_is_not_retried_witness :
  exists e : Exn,
    call (scripted [] new_access_only) GetTags (fresh_session (Some stored_pair)) =
      (Throw e,
       sent (mkRequestArgs "GET" "/tag/list" (Some [("output", "json")]) None)
         (fresh_session (Some stored_pair))) /\
    is_client_error e = false.
Proof.
  destruct (network_failure_is_not_retried (scripted [] new_access_only) GetTags
              (mkRequestArgs "GET" "/tag/list" (Some [("output", "json")]) None)
              (fresh_session (Some stored_pair)) eq_refl eq_refl)
    as [e [Hcall [Hcls _]]].
  exists e. split; [exact Hcall | exact Hcls].
Defined.

(** X4. A 2xx answer whose content type includes ["application/json"]
    but whose body does not decode makes the call throw the decoder's
    [SyntaxError], also when the status is 204 or 205: the JSON rule
    comes first. The flag has been cleared by then. *)
Theorem undecodable_json_throws (E : Env) (a : RequestArgs) (s : Session)
    (r : Response) :
  answer E a s = Some r ->
  ok r = true ->
  includes "application/json" (nullish (content_type r) EmptyString) = true ->
  body_json r = None ->
  exists e : Exn,
    request_with E a s =
      (Throw e, mkSession (set_hasRetriedAuth false (this s)) (world (sent a s))) /\
    cls e = ClsSyntaxError /\
    is_client_error e = false.
Proof.
  intros Ha Hok Hjson Hbody.
  exists (mkExn ClsSyntaxError "Failed to parse JSON").
  split; [| split; reflexivity].
  assert (Hne : (status r =? 401) = false) by (unfold ok in Hok; lia).
  rewrite (request_answered _ _ _ _ Ha), Hne. cbn [andb].
  rewrite (finish_request_ok _ _ Hok).
  unfold decode_response. rewrite Hjson, Hbody. reflexivity.
Qed.

Lemma undecodable_json_throws_witness :
  exists e : Exn,
    request_with (scripted [r204_json] None) user_info_args (fresh_session None) =
      (Throw e,
       mkSession (set_hasRetriedAuth false (this (fresh_session None)))
         (world (sent user_info_args (fresh_session None)))) /\
    cls e = ClsSyntaxError.
Proof.
  destruct (undecodable_json_throws (scripted [r204_json] None) user_info_args
              (fresh_session None) r204_json eq_refl eq_refl eq_refl eq_refl)
    as [e [Hcall [Hcls _]]].
  exists e. split; [exact Hcall | exact Hcls].
Defined.

(** X5. [tryRefreshToken] never throws, whatever the secret store, the
    platform and the token endpoint do: it answers true or false, and it
    changes neither the configuration nor the retry flag of the
    client. *)
Theorem refresh_never_throws (E : Env) (s : Session) :
  exists (b : bool) (s' : Session),
    tryRefreshToken E s = (Ok b, s') /\
    config (this s') = config (this s) /\
    hasRetriedAuth (this s') = hasRetriedAuth (this s).
Proof.
  destruct (tryRefreshToken E s) as [r s'] eqn:Hrun.
  pose proof (tryRefreshToken_spec _ _ _ _ Hrun) as [l [_ [_ Hcases]]].
  destruct Hcases as [[-> Hthis] | [-> [tokens [nt [resp H]]]]].
  - exists false, s'. rewrite Hthis. auto.
  - cbn zeta in H. destruct H as [_ [_ [_ [_ [_ [_ Hthis]]]]]].
    exists true, s'. rewrite Hthis. auto.
Qed.

(** X6. With no stored pair, or a stored pair whose refresh token is
    empty, [tryRefreshToken] answers false after loading the store: the
    token endpoint is not called and the client is unchanged. *)
Theorem nothing_to_refresh_from (E : Env) (s : Session) :
  keychain (world s) = None \/
  (exists tokens : TokenData,
     keychain (world s) = Some tokens /\ refreshToken_of tokens = EmptyString) ->
  tryRefreshToken E s = (Ok false, mkSession (this s) (log EvLoadTokens (world s))).
Proof.
  intro Hstore.
  cbv beta iota zeta delta [tryRefreshToken bind ret throw try_catch liftW].
  destruct (loadTokens_spec E (world s)) as [ld [Hld Hkc]]. rewrite Hld.
  cbn [this world].
  destruct ld as [tokens|]; [| reflexivity].
  destruct Hkc as [Hkc | Hkc]; [discriminate |].
  destruct Hstore as [Hnone | [tokens' [Hsome Hempty]]].
  - rewrite Hnone in Hkc. discriminate.
  - rewrite Hsome in Hkc. inversion Hkc; subst tokens'.
    rewrite Hempty. reflexivity.
Qed.

Lemma nothing_to_refresh_from_witness :
  tryRefreshToken (scripted [] new_access_only)
    (fresh_session (Some (mkTokenData (Some "A1") EmptyString None))) =
  (Ok false,
   mkSession (this (fresh_session (Some (mkTokenData (Some "A1") EmptyString None))))
     (log EvLoadTokens (world (fresh_session (Some (mkTokenData (Some "A1") EmptyString None)))))).
Proof.
  apply (nothing_to_refresh_from (scripted [] new_access_only)
           (fresh_session (Some (mkTokenData (Some "A1") EmptyString None)))).
  right. exists (mkTokenData (Some "A1") EmptyString None). split; reflexivity.
Defined.

(** X7. Without [INOREADER_APP_ID] or [INOREADER_APP_KEY] no token
    request is ever sent: [refreshAccessToken] throws before its
    [fetch], so [tryRefreshToken] answers false having only loaded the
    store, and a call whose first attempt is answered 401 fails with the
    Authentication error. *)
Theorem refresh_needs_credentials (E : Env) :
  truthy (INOREADER_APP_ID E) = false \/ truthy (INOREADER_APP_KEY E) = false ->
  (forall (refreshToken : string) (w : World),
     exists e : Exn,
       refreshAccessToken E refreshToken w = (Throw e, w) /\ cls e = ClsError) /\
  (forall s : Session,
     tryRefreshToken E s = (Ok false, mkSession (this s) (log EvLoadTokens (world s)))) /\
  (forall (a : RequestArgs) (s : Session) (r : Response),
     hasRetriedAuth (this s) = false ->
     answer E a s = Some r ->
     status r = 401 ->
     request_with E a s =
       (Throw (AuthenticationError AUTH_EXPIRED),
        mkSession (set_hasRetriedAuth true (this s))
          (log EvLoadTokens (world (sent a s))))).
Proof.
  intro Hmissing.
  assert (Hcfg : negb (truthy (INOREADER_APP_ID E)) || negb (truthy (INOREADER_APP_KEY E))
                 = true).
  { destruct Hmissing as [-> | ->]; [reflexivity | apply orb_true_r]. }
  assert (Hrefresh : forall (refreshToken : string) (w : World),
            exists e : Exn,
              refreshAccessToken E refreshToken w = (Throw e, w) /\ cls e = ClsError).
  { intros R w.
    cbv beta iota zeta delta [refreshAccessToken getAuthConfig bind throw].
    rewrite Hcfg. eexists. split; reflexivity. }
  assert (Htry : forall s : Session,
            tryRefreshToken E s =
            (Ok false, mkSession (this s) (log EvLoadTokens (world s)))).
  { intro s.
    cbv beta iota zeta delta [tryRefreshToken bind ret throw try_catch liftW update_this now].
    destruct (loadTokens_spec E (world s)) as [ld [Hld _]]. rewrite Hld.
    cbn [this world].
    destruct ld as [tokens|]; [| reflexivity].
    destruct (negb (truthy_string (refreshToken_of tokens))); [reflexivity |].
    cbn [this world].
    destruct (Hrefresh (refreshToken_of tokens) (log EvLoadTokens (world s)))
      as [e [-> _]].
    reflexivity. }
  split; [exact Hrefresh | split; [exact Htry |]].
  intros a s r Hfresh Ha H401.
  rewrite (request_answered _ _ _ _ Ha), H401, Hfresh. cbn [Z.eqb Pos.eqb negb andb].
  rewrite Htry. reflexivity.
Qed.

Lemma refresh_needs_credentials_witness :
  tryRefreshToken no_credentials (fresh_session (Some stored_pair)) =
  (Ok false,
   mkSession (this (fresh_session (Some stored_pair)))
     (log EvLoadTokens (world (fresh_session (Some stored_pair))))).
Proof.
  assert (Hmissing : truthy (INOREADER_APP_ID no_credentials) = false \/
                     truthy (INOREADER_APP_KEY no_credentials) = false)
    by (left; reflexivity).
  destruct (refresh_needs_credentials no_credentials Hmissing) as [_ [H _]].
  apply H.
Defined.

(** X8. When the token endpoint has issued new tokens but they cannot be
    written to the secret store, [tryRefreshToken] answers false and the
    client keeps its old access token: the tokens just issued are
    dropped. *)
Theorem unsaved_token_is_not_adopted (E : Env) (s : Session) (tokens : TokenData)
    (newTokens : TokenResponse) (w1 w2 w3 : World) (e : Exn) :
  loadTokens E (world s) = (Ok (Some tokens), w1) ->
  truthy_string (refreshToken_of tokens) = true ->
  refreshAccessToken E (refreshToken_of tokens) w1 = (Ok newTokens, w2) ->
  saveTokens E (refreshed_pair E tokens newTokens w2) w2 = (Throw e, w3) ->
  tryRefreshToken E s = (Ok false, mkSession (this s) w3) /\
  token_request_count (trace w3) = (token_request_count (trace (world s)) + 1)%nat.
Proof.
  intros Hload Htruthy Hrefresh Hsave. split.
  - cbv beta iota zeta delta [tryRefreshToken bind ret throw try_catch liftW update_this now].
    rewrite Hload. cbn [this world]. rewrite Htruthy. cbn [negb this world].
    rewrite Hrefresh. cbn [this world].
    unfold refreshed_pair in Hsave. rewrite Hsave. reflexivity.
  - destruct (loadTokens_spec E (world s)) as [ld [Hld _]].
    rewrite Hld in Hload. inversion Hload; subst; clear Hload.
    pose proof (refreshAccessToken_spec _ _ _ _ _ Hrefresh) as [_ [_ Hok]].
    destruct (Hok newTokens eq_refl) as [-> _].
    pose proof (saveTokens_spec _ _ _ _ _ Hsave) as [-> _].
    cbn [log trace]. unfold token_request_count.
    rewrite !filter_app, !length_app. cbn. lia.
Qed.

Lemma unsaved_token_is_not_adopted_witness :
  fst (tryRefreshToken linux_readonly (fresh_session (Some stored_pair))) = Ok false /\
  accessToken (this (snd (tryRefreshToken linux_readonly
                            (fresh_session (Some stored_pair))))) = Some "A1".
Proof.
  assert (Hload : loadTokens linux_readonly (world (fresh_session (Some stored_pair))) =
                  (Ok (Some stored_pair),
                   log EvLoadTokens (world (fresh_session (Some stored_pair)))))
    by reflexivity.
  assert (Hrefresh :
            refreshAccessToken linux_readonly (refreshToken_of stored_pair)
              (log EvLoadTokens (world (fresh_session (Some stored_pair)))) =
            (Ok (mkTokenResponse (Some "A2") None (Some 3600) (Some "Bearer")),
             snd (refreshAccessToken linux_readonly (refreshToken_of stored_pair)
                    (log EvLoadTokens (world (fresh_session (Some stored_pair)))))))
    by reflexivity.
  destruct (unsaved_token_is_not_adopted linux_readonly
              (fresh_session (Some stored_pair)) stored_pair
              (mkTokenResponse (Some "A2") None (Some 3600) (Some "Bearer")) _ _
              (snd (saveTokens linux_readonly
                      (refreshed_pair linux_readonly stored_pair
                         (mkTokenResponse (Some "A2") None (Some 3600) (Some "Bearer"))
                         (snd (refreshAccessToken linux_readonly
                                 (refreshToken_of stored_pair)
                                 (log EvLoadTokens
                                    (world (fresh_session (Some stored_pair)))))))
                      (snd (refreshAccessToken linux_readonly
                              (refreshToken_of stored_pair)
                              (log EvLoadTokens
                                 (world (fresh_session (Some stored_pair))))))))
              (mkExn ClsShellError "Failed with exit code 1")
              Hload eq_refl Hrefresh eq_refl) as [Hrun _].
  rewrite Hrun. split; reflexivity.
Defined.

(** X10. On any other platform there is no secret store: a save throws
    the unsupported-platform error and stores nothing, a load finds
    nothing even when something is there, a delete does nothing, a
    refresh answers false, and without [INOREADER_ACCESS_TOKEN] no
    access token can be obtained. *)
Theorem other_platforms_have_no_store (E : Env) (name : string) :
  platform E = OtherPlatform name ->
  (forall (t : TokenData) (w : World),
     saveTokens E t w =
       (Throw (mkExn ClsError
                 ("Unsupported platform: " ++ name ++
                  ". Use environment variables instead.")),
        log (EvSaveTokens t) w)) /\
  (forall w : World, loadTokens E w = (Ok None, log EvLoadTokens w)) /\
  (forall w : World, deleteTokens E w = (Ok tt, w)) /\
  (forall s : Session,
     tryRefreshToken E s = (Ok false, mkSession (this s) (log EvLoadTokens (world s)))) /\
  (truthy (INOREADER_ACCESS_TOKEN E) = false ->
   forall w : World,
     exists e : Exn,
       getValidAccessToken E w = (Throw e, log EvLoadTokens w) /\
       prefix "Not authenticated." (message e) = true).
Proof.
  intro Hplatform.
  assert (Hload : forall w : World, loadTokens E w = (Ok None, log EvLoadTokens w)).
  { intro w. cbv beta iota zeta delta [loadTokens bind ret]. rewrite Hplatform.
    reflexivity. }
  split; [| split; [exact Hload | split; [| split]]].
  - intros t w. cbv beta iota zeta delta [saveTokens bind throw]. rewrite Hplatform.
    reflexivity.
  - intro w. unfold deleteTokens. rewrite Hplatform. reflexivity.
  - intro s.
    cbv beta iota zeta delta [tryRefreshToken bind ret throw try_catch liftW].
    rewrite Hload. reflexivity.
  - intros Henv w.
    cbv beta iota zeta delta [getValidAccessToken bind ret throw].
    rewrite Henv, Hload. eexists. split; reflexivity.
Qed.

Lemma other_platforms_have_no_store_witness :
  loadTokens windows_host (world_storing (Some pair_fresh)) =
    (Ok None, log EvLoadTokens (world_storing (Some pair_fresh))) /\
  exists e : Exn,
    getValidAccessToken windows_host (world_storing (Some pair_fresh)) =
      (Throw e, log EvLoadTokens (world_storing (Some pair_fresh))).
Proof.
  destruct (other_platforms_have_no_store windows_host "win32" eq_refl)
    as [_ [Hload [_ [_ Hget]]]].
  split; [apply Hload |].
  destruct (Hget eq_refl (world_storing (Some pair_fresh))) as [e [He _]].
  exists e. exact He.
Defined.

(** X11. A failed write is not the same on the two platforms. On macOS
    the old entry is deleted before the new one is added, so when the
    delete works and the add fails the save throws and the store is left
    empty; on Linux a failed store throws and leaves the old pair in
    place. *)
Theorem failed_write_differs_by_platform (E : Env) (t : TokenData) (w : World) :
  (platform E = Darwin ->
   shell_ok E (trace (log (EvSaveTokens t) w)) SecurityDelete = true ->
   shell_ok E (trace (log (EvSaveTokens t) w)) SecurityAdd = false ->
   exists e : Exn,
     saveTokens E t w = (Throw e, set_keychain None (log (EvSaveTokens t) w))) /\
  (platform E = Linux ->
   shell_ok E (trace (log (EvSaveTokens t) w)) SecretToolStore = false ->
   exists e : Exn,
     saveTokens E t w = (Throw e, log (EvSaveTokens t) w) /\
     keychain (log (EvSaveTokens t) w) = keychain w).
Proof.
  split.
  - intros Hplatform Hdelete Hadd.
    cbv beta iota zeta delta [saveTokens macOSSet bind ret throw try_catch shell].
    rewrite Hplatform, Hdelete. cbn [set_keychain trace]. cbn [trace log] in Hadd.
    cbn [trace log]. rewrite Hadd. eexists. reflexivity.
  - intros Hplatform Hstore.
    cbv beta iota zeta delta [saveTokens linuxSet bind ret throw try_catch shell].
    rewrite Hplatform, Hstore. eexists. split; reflexivity.
Qed.

Lemma failed_write_differs_by_platform_witness :
  keychain (snd (saveTokens (mac_host [SecurityAdd]) pair_due
                   (world_storing (Some pair_fresh)))) = None /\
  keychain (snd (saveTokens linux_readonly pair_due (world_storing (Some pair_fresh)))) =
    Some pair_fresh.
Proof.
  destruct (failed_write_differs_by_platform (mac_host [SecurityAdd]) pair_due
              (world_storing (Some pair_fresh))) as [Hmac _].
  destruct (failed_write_differs_by_platform linux_readonly pair_due
              (world_storing (Some pair_fresh))) as [_ Hlinux].
  destruct (Hmac eq_refl eq_refl eq_refl) as [e He].
  destruct (Hlinux eq_refl eq_refl) as [e' [He' _]].
  rewrite He, He'. split; reflexivity.
Defined.

(** X12. [deleteTokens] never throws and sends nothing. With working
    keychain tools on macOS or Linux the store is empty afterwards, so
    that, without [INOREADER_ACCESS_TOKEN], the next attempt to obtain an
    access token fails as not authenticated. *)
Theorem deleted_tokens_are_gone (E : Env) (w : World) :
  (fst (deleteTokens E w) = Ok tt /\
   trace (snd (deleteTokens E w)) = trace w) /\
  (tools_work E ->
   platform E = Darwin \/ platform E = Linux ->
   deleteTokens E w = (Ok tt, set_keychain None w) /\
   (truthy (INOREADER_ACCESS_TOKEN E) = false ->
    exists e : Exn,
      fst (getValidAccessToken E (snd (deleteTokens E w))) = Throw e /\
      prefix "Not authenticated." (message e) = true)).
Proof.
  split.
  - cbv beta iota zeta delta [deleteTokens macOSDelete linuxDelete bind ret throw
                                try_catch shell].
    destruct (platform E); repeat (destruct_innermost; cbn); auto.
  - intros Hwork Hplatform.
    assert (Hdelete : deleteTokens E w = (Ok tt, set_keychain None w)).
    { cbv beta iota zeta delta [deleteTokens macOSDelete linuxDelete bind ret throw
                                  try_catch shell].
      destruct Hplatform as [-> | ->]; rewrite ?Hwork; reflexivity. }
    split; [exact Hdelete |].
    intro Henv. rewrite Hdelete. cbn [snd].
    cbv beta iota zeta delta [getValidAccessToken bind ret throw].
    rewrite Henv.
    destruct (loadTokens_spec E (set_keychain None w)) as [ld [Hld Hkc]].
    rewrite Hld.
    assert (Hnone : ld = None) by (destruct Hkc as [-> | ->]; reflexivity).
    rewrite Hnone. eexists. split; reflexivity.
Qed.

Lemma deleted_tokens_are_gone_witness :
  deleteTokens (scripted [] None) (world_storing (Some pair_fresh)) =
  (Ok tt, set_keychain None (world_storing (Some pair_fresh))).
Proof.
  assert (Hwork : tools_work (scripted [] None)) by (intros tr cmd; reflexivity).
  assert (Hplatform : platform (scripted [] None) = Darwin \/
                      platform (scripted [] None) = Linux) by (right; reflexivity).
  destruct (deleted_tokens_are_gone (scripted [] None) (world_storing (Some pair_fresh)))
    as [_ H].
  destruct (H Hwork Hplatform) as [Hdelete _]. exact Hdelete.
Defined.

(** X13. [getValidAccessToken] returns a truthy [INOREADER_ACCESS_TOKEN]
    as it is, without touching the secret store. Otherwise whatever it
    returns is the access token of the pair that the store holds when it
    returns, be it the stored one or a refreshed one. *)
Theorem startup_token_is_the_stored_one (E : Env) (w : World) :
  (truthy (INOREADER_ACCESS_TOKEN E) = true ->
   getValidAccessToken E w = (Ok (INOREADER_ACCESS_TOKEN E), w)) /\
  (truthy (INOREADER_ACCESS_TOKEN E) = false ->
   forall (tok : option string) (w' : World),
     getValidAccessToken E w = (Ok tok, w') ->
     exists pair : TokenData, keychain w' = Some pair /\ accessToken_of pair = tok).
Proof.
  split.
  - intro Henv. unfold getValidAccessToken. rewrite Henv. reflexivity.
  - intros Henv tok w'.
    cbv beta iota zeta delta [getValidAccessToken bind ret throw try_catch now].
    rewrite Henv.
    destruct (loadTokens_spec E w) as [ld [Hld Hkc]]. rewrite Hld.
    destruct ld as [tokens|]; [| discriminate].
    destruct Hkc as [Hkc | Hkc]; [discriminate |].
    match goal with
    | |- context [if ?c then _ else _] => destruct c
    end.
    + destruct (refreshAccessToken E (refreshToken_of tokens) (log EvLoadTokens w))
        as [[nt|e] w2] eqn:Href; [| discriminate].
      match goal with
      | |- context [saveTokens E ?p ?v] =>
          destruct (saveTokens E p v) as [[[]|e] w3] eqn:Hsave; [| discriminate]
      end.
      pose proof (saveTokens_spec _ _ _ _ _ Hsave) as [_ Hstored].
      intro H; inversion H; subst; clear H.
      eexists. split; [apply Hstored; reflexivity | reflexivity].
    + intro H; inversion H; subst; clear H.
      exists tokens. split; [cbn [log keychain]; congruence | reflexivity].
Qed.

Lemma startup_token_is_the_stored_one_witness :
  exists pair : TokenData,
    keychain (snd (getValidAccessToken (scripted [] new_access_only)
                     (world_storing (Some pair_due)))) = Some pair /\
    accessToken_of pair = Some "A2".
Proof.
  destruct (startup_token_is_the_stored_one (scripted [] new_access_only)
              (world_storing (Some pair_due))) as [_ H].
  apply (H eq_refl (Some "A2")). vm_compute. reflexivity.
Defined.

(** X14. A stored pair is used as it is, with no token request and no
    write, when it has no expiry, or an expiry of 0, or an expiry at
    least five minutes ahead of the clock, and also when it has no
    refresh token, however long expired it is. *)
Theorem stored_token_is_used_unrefreshed (E : Env) (w : World) (tokens : TokenData) :
  truthy (INOREADER_ACCESS_TOKEN E) = false ->
  loadTokens E w = (Ok (Some tokens), log EvLoadTokens w) ->
  expiresAt_of tokens = None \/
  expiresAt_of tokens = Some 0 \/
  (exists e : Z,
     expiresAt_of tokens = Some e /\
     Date_now E (trace (log EvLoadTokens w)) + 300000 <= e) \/
  refreshToken_of tokens = EmptyString ->
  getValidAccessToken E w = (Ok (accessToken_of tokens), log EvLoadTokens w).
Proof.
  intros Henv Hload Hfresh.
  cbv beta iota zeta delta [getValidAccessToken bind ret throw try_catch now].
  rewrite Henv, Hload.
  destruct Hfresh as [H | [H | [[e [H Hlate]] | H]]].
  - rewrite H. reflexivity.
  - rewrite H. reflexivity.
  - rewrite H.
    assert (Hlt : (e <? Date_now E (trace (log EvLoadTokens w)) + 5 * 60 * 1000) = false)
      by lia.
    rewrite Hlt, andb_false_r. reflexivity.
  - rewrite H. cbn [truthy_string String.eqb negb]. rewrite andb_false_r. reflexivity.
Qed.

Lemma stored_token_is_used_unrefreshed_witness :
  getValidAccessToken (scripted [] new_access_only)
    (world_storing (Some (mkTokenData (Some "A1") EmptyString (Some 1)))) =
  (Ok (Some "A1"),
   log EvLoadTokens (world_storing (Some (mkTokenData (Some "A1") EmptyString (Some 1))))).
Proof.
  apply (stored_token_is_used_unrefreshed (scripted [] new_access_only)
           (world_storing (Some (mkTokenData (Some "A1") EmptyString (Some 1))))
           (mkTokenData (Some "A1") EmptyString (Some 1)) eq_refl eq_refl).
  right. right. right. reflexivity.
Defined.

(** X15. A stored pair with a refresh token whose expiry is less than
    five minutes ahead is refreshed at startup, and the stored access
    token is never returned for it. With the application credentials
    set, the token endpoint is called exactly once, for the stored
    refresh token. If it accepts and its answer decodes to [newTokens],
    the refreshed pair is saved; when the save works the result is the
    access token of [newTokens] and the store holds the refreshed pair,
    and when the save throws the result is the failure below for that
    error. If the endpoint refuses, cannot be reached, or answers what
    does not decode, nothing is saved and the result is the failure
    below for that error. Without the credentials no request is made
    and the result is the failure for the credentials error. The failure
    for an error is a plain [Error] whose message is ["Failed to refresh
    token: "], the error as a string, and the advice to log in again. *)
Theorem due_token_is_refreshed_at_startup (E : Env) (w : World) (tokens : TokenData)
    (e : Z) :
  truthy (INOREADER_ACCESS_TOKEN E) = false ->
  loadTokens E w = (Ok (Some tokens), log EvLoadTokens w) ->
  expiresAt_of tokens = Some e ->
  e <> 0 ->
  e < Date_now E (trace (log EvLoadTokens w)) + 300000 ->
  refreshToken_of tokens <> EmptyString ->
  let w1 := log EvLoadTokens w in
  let form := refresh_form E (refreshToken_of tokens) in
  let w2 := log (EvTokenRequest form) w1 in
  let failure := fun cause : Exn =>
    mkExn ClsError
      ("Failed to refresh token: " ++ String_of_Exn cause ++
       ". Run 'inoreader-mcp auth login' to re-authenticate.") in
  (truthy (INOREADER_APP_ID E) = true ->
   truthy (INOREADER_APP_KEY E) = true ->
   token_request_count (trace (snd (getValidAccessToken E w))) =
     (token_request_count (trace w) + 1)%nat /\
   (forall (resp : TokenEndpointResponse) (newTokens : TokenResponse),
      oauth E (trace w1) form = Some resp ->
      token_ok resp = true ->
      token_json resp = Some newTokens ->
      let pair := refreshed_pair E tokens newTokens w2 in
      (forall w3 : World,
         saveTokens E pair w2 = (Ok tt, w3) ->
         getValidAccessToken E w = (Ok (access_token newTokens), w3) /\
         keychain w3 = Some pair /\
         trace w3 =
           (trace w ++ [EvLoadTokens; EvTokenRequest form; EvSaveTokens pair])%list) /\
      (forall (cause : Exn) (w3 : World),
         saveTokens E pair w2 = (Throw cause, w3) ->
         getValidAccessToken E w = (Throw (failure cause), w3))) /\
   (forall resp : TokenEndpointResponse,
      oauth E (trace w1) form = Some resp ->
      token_ok resp = false ->
      getValidAccessToken E w =
        (Throw (failure (mkExn ClsError ("Token refresh failed: " ++ token_text resp))),
         w2)) /\
   (forall resp : TokenEndpointResponse,
      oauth E (trace w1) form = Some resp ->
      token_ok resp = true ->
      token_json resp = None ->
      getValidAccessToken E w =
        (Throw (failure (mkExn ClsSyntaxError "Failed to parse JSON")), w2)) /\
   (oauth E (trace w1) form = None ->
    getValidAccessToken E w =
      (Throw (failure (mkExn ClsTypeError "fetch failed")), w2))) /\
  (truthy (INOREADER_APP_ID E) = false \/ truthy (INOREADER_APP_KEY E) = false ->
   exists cause : Exn,
     getValidAccessToken E w = (Throw (failure cause), w1) /\
     prefix "INOREADER_APP_ID and INOREADER_APP_KEY environment variables are required."
       (message cause) = true) /\
  (forall (tok : option string) (w' : World),
     getValidAccessToken E w = (Ok tok, w') ->
     exists (resp : TokenEndpointResponse) (newTokens : TokenResponse),
       oauth E (trace w1) form = Some resp /\
       token_json resp = Some newTokens /\
       tok = access_token newTokens /\
       keychain w' = Some (refreshed_pair E tokens newTokens w2)).
Proof.
  intros Henv Hload Hexp Hnz Hdue Hrt w1 form w2 failure.
  assert (Hz : (e =? 0) = false) by lia.
  assert (Hlt : (e <? Date_now E (trace (log EvLoadTokens w)) + 5 * 60 * 1000) = true)
    by lia.
  assert (Ht : truthy_string (refreshToken_of tokens) = true).
  { unfold truthy_string. apply String.eqb_neq in Hrt. rewrite Hrt. reflexivity. }
  assert (Hstep :
            getValidAccessToken E w =
            match refreshAccessToken E (refreshToken_of tokens) w1 with
            | (Ok nt, v) =>
                match saveTokens E (refreshed_pair E tokens nt v) v with
                | (Ok _, v') => (Ok (access_token nt), v')
                | (Throw cause, v') => (Throw (failure cause), v')
                end
            | (Throw cause, v) => (Throw (failure cause), v)
            end).
  { cbv beta iota zeta delta [getValidAccessToken bind ret throw try_catch now].
    rewrite Henv, Hload, Hexp, Hz, Hlt, Ht. cbn [negb andb].
    subst w1. destruct (refreshAccessToken E (refreshToken_of tokens) (log EvLoadTokens w))
      as [[nt|cause] v]; [| reflexivity].
    unfold refreshed_pair.
    match goal with
    | |- context [saveTokens E ?p ?v] => destruct (saveTokens E p v) as [[[]|cause] v']
    end; reflexivity. }
  assert (Hcall :
            truthy (INOREADER_APP_ID E) = true ->
            truthy (INOREADER_APP_KEY E) = true ->
            refreshAccessToken E (refreshToken_of tokens) w1 =
            match oauth E (trace w1) form with
            | Some resp =>
                if token_ok resp then
                  match token_json resp with
                  | Some nt => (Ok nt, w2)
                  | None => (Throw (mkExn ClsSyntaxError "Failed to parse JSON"), w2)
                  end
                else (Throw (mkExn ClsError ("Token refresh failed: " ++ token_text resp)),
                      w2)
            | None => (Throw (mkExn ClsTypeError "fetch failed"), w2)
            end).
  { intros Hid Hkey.
    cbv beta iota zeta delta [refreshAccessToken getAuthConfig bind ret throw].
    rewrite Hid, Hkey. cbn [negb orb auth_appId auth_appKey].
    subst form w2. unfold refresh_form.
    destruct (oauth E (trace w1) _) as [resp|]; [| reflexivity].
    destruct (token_ok resp); cbn [negb]; [| reflexivity].
    destruct (token_json resp); reflexivity. }
  split; [| split].
  - intros Hid Hkey. specialize (Hcall Hid Hkey).
    split; [| split; [| split; [| split]]].
    + rewrite Hstep, Hcall.
      assert (Hw2 : token_request_count (trace w2) = (token_request_count (trace w) + 1)%nat).
      { subst w2 w1. cbn [log trace]. unfold token_request_count.
        rewrite !filter_app, !length_app. cbn. lia. }
      destruct (oauth E (trace w1) form) as [resp|]; [| exact Hw2].
      destruct (token_ok resp); [| exact Hw2].
      destruct (token_json resp) as [nt|]; [| exact Hw2].
      destruct (saveTokens E (refreshed_pair E tokens nt w2) w2) as [[[]|cause] w3] eqn:Hsave;
        pose proof (saveTokens_spec _ _ _ _ _ Hsave) as [Htr _];
        cbn [snd]; rewrite Htr; rewrite <- Hw2; unfold token_request_count;
        rewrite filter_app, length_app; cbn [filter is_token_request length]; lia.
    + intros resp nt Ho Hok Hj pair. rewrite Hstep, Hcall, Ho, Hok, Hj.
      fold pair. split.
      * intros w3 Hsave. rewrite Hsave.
        pose proof (saveTokens_spec _ _ _ _ _ Hsave) as [Htr Hstored].
        split; [reflexivity |]. split; [apply Hstored; reflexivity |].
        rewrite Htr. subst w2 w1. cbn [log trace]. rewrite <- !app_assoc. reflexivity.
      * intros cause w3 Hsave. rewrite Hsave. reflexivity.
    + intros resp Ho Hok. rewrite Hstep, Hcall, Ho, Hok. reflexivity.
    + intros resp Ho Hok Hj. rewrite Hstep, Hcall, Ho, Hok, Hj. reflexivity.
    + intro Ho. rewrite Hstep, Hcall, Ho. reflexivity.
  - intro Hmissing. rewrite Hstep.
    cbv beta iota zeta delta [refreshAccessToken getAuthConfig bind ret throw].
    assert (Hc : negb (truthy (INOREADER_APP_ID E)) || negb (truthy (INOREADER_APP_KEY E))
                 = true).
    { destruct Hmissing as [-> | ->]; cbn [negb orb]; [reflexivity | apply orb_true_r]. }
    rewrite Hc. eexists. split; reflexivity.
  - intros tok w' Hrun. rewrite Hstep in Hrun.
    destruct (refreshAccessToken E (refreshToken_of tokens) w1) as [[nt|cause] v] eqn:Href;
      [| discriminate].
    pose proof (refreshAccessToken_spec _ _ _ _ _ Href) as [_ [_ Hok]].
    destruct (Hok nt eq_refl) as [-> [resp [Ho [_ Hj]]]].
    fold form in Hrun, Ho. fold w2 in Hrun.
    destruct (saveTokens E (refreshed_pair E tokens nt w2) w2) as [[[]|cause] w3] eqn:Hsave;
      [| discriminate].
    inversion Hrun; subst tok w'; clear Hrun.
    pose proof (saveTokens_spec _ _ _ _ _ Hsave) as [_ Hstored].
    exists resp, nt. split; [exact Ho |]. split; [exact Hj |].
    split; [reflexivity | apply Hstored; reflexivity].
Qed.

Lemma due_token_is_refreshed_at_startup_witness :
  getValidAccessToken (scripted [] new_access_only) (world_storing (Some pair_due)) =
    (Ok (Some "A2"),
     snd (getValidAccessToken (scripted [] new_access_only)
            (world_storing (Some pair_due)))) /\
  keychain (snd (getValidAccessToken (scripted [] new_access_only)
                   (world_storing (Some pair_due)))) =
    Some (mkTokenData (Some "A2") "R1" (Some 1700003600000)) /\
  fst (getValidAccessToken (scripted [] token_refused) (world_storing (Some pair_due))) =
    Throw (mkExn ClsError
             "Failed to refresh token: Error: Token refresh failed: invalid_grant. Run 'inoreader-mcp auth login' to re-authenticate.").
Proof.
  assert (Hne : refreshToken_of pair_due <> EmptyString) by discriminate.
  assert (Hnz : 1700000240000 <> 0) by discriminate.
  assert (Hdue : forall answer,
            1700000240000 <
            Date_now (scripted [] answer)
              (trace (log EvLoadTokens (world_storing (Some pair_due)))) + 300000)
    by (intro answer; vm_compute; reflexivity).
  pose proof (due_token_is_refreshed_at_startup (scripted [] new_access_only)
                (world_storing (Some pair_due)) pair_due 1700000240000
                eq_refl eq_refl eq_refl Hnz (Hdue _) Hne) as Hgood.
  pose proof (due_token_is_refreshed_at_startup (scripted [] token_refused)
                (world_storing (Some pair_due)) pair_due 1700000240000
                eq_refl eq_refl eq_refl Hnz (Hdue _) Hne) as Hbad.
  cbn zeta in Hgood, Hbad.
  destruct Hgood as [Hgood _]. destruct (Hgood eq_refl eq_refl) as [_ [Haccepted _]].
  destruct Hbad as [Hbad _]. destruct (Hbad eq_refl eq_refl) as [_ [_ [Hrefused _]]].
  specialize (Haccepted
                (mkTokenEndpointResponse true EmptyString
                   (Some (mkTokenResponse (Some "A2") None (Some 3600) (Some "Bearer"))))
                (mkTokenResponse (Some "A2") None (Some 3600) (Some "Bearer"))
                eq_refl eq_refl eq_refl).
  cbn zeta in Haccepted. destruct Haccepted as [Hsaved _].
  destruct (Hsaved _ eq_refl) as [Hrun [Hstore _]].
  specialize (Hrefused (mkTokenEndpointResponse false "invalid_grant" None)
                eq_refl eq_refl).
  split; [| split].
  - rewrite Hrun. reflexivity.
  - rewrite Hrun. cbn [snd]. rewrite Hstore. reflexivity.
  - rewrite Hrefused. reflexivity.
Defined.

(** X16. [getClient] creates the client once: after a call that returned
    a client, every further call returns the same client without any
    effect, and a method run on it keeps it in place. A creation that
    fails leaves no client behind, so the next call tries again. *)
Theorem client_is_created_once (E : Env) (st st1 : ServerState) :
  (forall c : InoreaderClient,
     getClient E st = (Ok c, st1) ->
     client st1 = Some c /\
     getClient E st1 = (Ok c, st1) /\
     forall (A : Type) (m : M Session A),
       client (snd (on_client c m st1)) = Some (this (snd (m (mkSession c (server_world st1)))))) /\
  (forall e : Exn, getClient E st = (Throw e, st1) -> client st = None /\ client st1 = None).
Proof.
  split.
  - intros c Hc.
    assert (Hslot : client st1 = Some c).
    { revert Hc. unfold getClient. destruct (client st) as [c0|] eqn:Hcl.
      - intro H; inversion H; subst. exact Hcl.
      - destruct (createClient E (server_world st)) as [[c1|e] w];
          intro H; inversion H; subst; reflexivity. }
    split; [exact Hslot | split].
    + unfold getClient. rewrite Hslot. reflexivity.
    + intros A m. unfold on_client.
      destruct (m (mkSession c (server_world st1))) as [r s']. reflexivity.
  - intros e He. revert He. unfold getClient.
    destruct (client st) as [c0|] eqn:Hcl; [discriminate |].
    destruct (createClient E (server_world st)) as [[c1|e1] w];
      intro H; inversion H; subst; auto.
Qed.

Lemma client_is_created_once_witness :
  getClient (scripted [] None)
    (snd (getClient (scripted [] None) (server_empty (Some pair_fresh)))) =
  (Ok (new_InoreaderClient
         (mkConfig "app-id" "app-key" (Some "A1") None
            "https://www.inoreader.com/reader/api/0" "https://www.inoreader.com/oauth2")
         (Some "A1")),
   snd (getClient (scripted [] None) (server_empty (Some pair_fresh)))).
Proof.
  destruct (client_is_created_once (scripted [] None) (server_empty (Some pair_fresh))
              (snd (getClient (scripted [] None) (server_empty (Some pair_fresh)))))
    as [H _].
  destruct (H (new_InoreaderClient
                 (mkConfig "app-id" "app-key" (Some "A1") None
                    "https://www.inoreader.com/reader/api/0"
                    "https://www.inoreader.com/oauth2")
                 (Some "A1"))) as [_ [Hagain _]].
  - vm_compute. reflexivity.
  - exact Hagain.
Defined.

(** X17. Every attempt carries [Authorization: Bearer] followed by the
    client's current access token, as a template literal renders it.
    After a successful refresh that token
    is the access token of the pair now in the secret store, and the
    replay differs from the first attempt in its headers only. *)
Theorem replay_uses_the_refreshed_token (E : Env) (a : RequestArgs) (s s2 : Session) :
  params_lookup "Authorization" (req_headers (attempt a s)) =
    Some ("Bearer " ++ interpolate (accessToken (this s))) /\
  (tryRefreshToken E (retrying a s) = (Ok true, s2) ->
   (exists pair : TokenData,
      keychain (world s2) = Some pair /\
      params_lookup "Authorization" (req_headers (attempt a s2)) =
        Some ("Bearer " ++ interpolate (accessToken_of pair))) /\
   req_method (attempt a s2) = req_method (attempt a s) /\
   req_url (attempt a s2) = req_url (attempt a s) /\
   req_search (attempt a s2) = req_search (attempt a s) /\
   req_body (attempt a s2) = req_body (attempt a s)).
Proof.
  assert (Hauth : forall x : Session,
            params_lookup "Authorization" (req_headers (attempt a x)) =
            Some ("Bearer " ++ interpolate (accessToken (this x)))).
  { intro x. unfold attempt, build_request.
    destruct (arg_body a) as [b|]; [destruct (arg_method a =? "POST")%string |];
      reflexivity. }
  split; [apply Hauth |].
  intro Hrun.
  pose proof (tryRefreshToken_spec _ _ _ _ Hrun) as [l [_ [_ Hcases]]].
  destruct Hcases as [[Hf _] | [_ [tokens [nt [resp H]]]]]; [discriminate |].
  cbn zeta in H. destruct H as [_ [_ [_ [_ [_ [Hsave Hthis]]]]]].
  pose proof (saveTokens_spec _ _ _ _ _ Hsave) as [_ Hstored].
  split.
  - eexists. split; [apply Hstored; reflexivity |].
    rewrite Hauth, Hthis. reflexivity.
  - unfold attempt, build_request. rewrite Hthis. cbn [retrying this config set_accessToken
                                                        set_hasRetriedAuth].
    destruct (arg_body a) as [b|]; [destruct (arg_method a =? "POST")%string |];
      auto.
Qed.

Lemma replay_uses_the_refreshed_token_witness :
  exists pair : TokenData,
    keychain (world session_refreshed) = Some pair /\
    params_lookup "Authorization" (req_headers (attempt user_info_args session_refreshed)) =
      Some ("Bearer " ++ interpolate (accessToken_of pair)).
Proof.
  destruct (replay_uses_the_refreshed_token env_expired user_info_args
              (fresh_session (Some stored_pair)) session_refreshed) as [_ H].
  destruct H as [Hpair _]; [vm_compute; reflexivity | exact Hpair].
Defined.

Section Invariants.
Variable E : Env.

Lemma request_keeps_client_in_step (a : RequestArgs) (s : Session) :
  config (this (snd (request_with E a s))) = config (this s) /\
  (accessToken (this (snd (request_with E a s))) = accessToken (this s) \/
   exists pair : TokenData,
     keychain (world (snd (request_with E a s))) = Some pair /\
     accessToken_of pair = accessToken (this (snd (request_with E a s)))).
Proof.
  assert (Hfinish : forall r x,
            config (this (snd (finish_request r x))) = config (this x) /\
            accessToken (this (snd (finish_request r x))) = accessToken (this x) /\
            world (snd (finish_request r x)) = world x).
  { intros r x. destruct (finish_request_session r x) as [-> | ->]; auto. }
  destruct (answer E a s) as [r|] eqn:Ha.
  2:{ rewrite (request_unanswered _ _ _ Ha). cbn. auto. }
  rewrite (request_answered _ _ _ _ Ha).
  destruct ((status r =? 401) && negb (hasRetriedAuth (this s))).
  2:{ destruct (Hfinish r (sent a s)) as [Hc [Ht _]]. rewrite Hc, Ht. cbn. auto. }
  destruct (tryRefreshToken E (retrying a s)) as [res s2] eqn:Hr.
  pose proof (tryRefreshToken_flag _ _ _ _ Hr) as Hflag. cbn in Hflag.
  pose proof (tryRefreshToken_spec _ _ _ _ Hr) as [l [_ [_ Hcases]]].
  destruct Hcases as [[-> Hthis] | [-> [tokens [nt [resp H]]]]].
  - cbn [snd]. rewrite Hthis. cbn. auto.
  - cbn zeta in H. destruct H as [_ [_ [_ [_ [_ [Hsave Hthis]]]]]].
    pose proof (saveTokens_spec _ _ _ _ _ Hsave) as [_ Hstored].
    specialize (Hstored eq_refl).
    rewrite (request_replay _ _ _ Hflag).
    destruct (answer E a s2) as [r2|].
    + destruct (Hfinish r2 (sent a s2)) as [Hc [Ht Hw]]. rewrite Hc, Ht, Hw.
      cbn [sent this world log keychain]. rewrite Hthis. split; [reflexivity |].
      right. eexists. split; [exact Hstored | reflexivity].
    + cbn [snd sent this world log keychain]. rewrite Hthis. split; [reflexivity |].
      right. eexists. split; [exact Hstored | reflexivity].
Qed.

Lemma token_request_count_app l1 l2 :
  token_request_count (l1 ++ l2) =
  (token_request_count l1 + token_request_count l2)%nat.
Proof. unfold token_request_count. rewrite filter_app, length_app. reflexivity. Qed.

Lemma save_count_app l1 l2 :
  save_count (l1 ++ l2) = (save_count l1 + save_count l2)%nat.
Proof. unfold save_count. rewrite filter_app, length_app. reflexivity. Qed.

(** What one call of [request] adds to the trace. *)
Lemma request_events (a : RequestArgs) (s : Session) :
  exists added : list Event,
    trace (world (snd (request_with E a s))) = (trace (world s) ++ added)%list /\
    (fetch_count added <= 2)%nat /\
    (refresh_count added <= 1)%nat /\
    (token_request_count added <= 1)%nat /\
    (save_count added <= 1)%nat /\
    (token_request_count added <= refresh_count added)%nat /\
    (save_count added <= token_request_count added)%nat.
Proof.
  destruct (answer E a s) as [r|] eqn:Ha.
  2:{ rewrite (request_unanswered _ _ _ Ha). eexists. split; [reflexivity |].
      cbn. lia. }
  rewrite (request_answered _ _ _ _ Ha).
  destruct ((status r =? 401) && negb (hasRetriedAuth (this s))).
  2:{ rewrite finish_request_world. eexists. split; [reflexivity |]. cbn. lia. }
  destruct (tryRefreshToken E (retrying a s)) as [res s2] eqn:Hr.
  pose proof (tryRefreshToken_flag _ _ _ _ Hr) as Hflag. cbn in Hflag.
  pose proof (tryRefreshToken_shape _ _ _ _ Hr) as [l [Htr Hl]].
  cbn [retrying sent world trace log] in Htr.
  rewrite <- app_assoc in Htr. cbn [app] in Htr.
  assert (Hfinal : exists tail,
            trace (world (snd (match res with
                               | Ok true => request_with E a s2
                               | Ok false => (Throw (AuthenticationError AUTH_EXPIRED), s2)
                               | Throw e => (Throw e, s2)
                               end))) = (trace (world s2) ++ tail)%list /\
            (tail = [] \/ exists req, tail = [EvFetch req])).
  { destruct res as [[|]|e].
    - rewrite (request_replay_world _ _ _ Hflag). cbn [sent world log trace]. eauto.
    - exists []. rewrite app_nil_r. auto.
    - exists []. rewrite app_nil_r. auto. }
  destruct Hfinal as [tail [Hfinal Htail]].
  exists ((EvFetch (attempt a s) :: EvLoadTokens :: l) ++ tail)%list.
  split.
  - destruct res as [[|]|e]; rewrite Hfinal, Htr, <- app_assoc; reflexivity.
  - rewrite fetch_count_app, refresh_count_app, token_request_count_app, save_count_app.
    destruct Hl as [-> | [[f ->] | [f [p ->]]]];
      destruct Htail as [-> | [req ->]]; cbn; lia.
Qed.

End Invariants.

(** X18. No operation changes the client's configuration, and the
    client's access token changes only together with the secret store:
    after any call the token is the one the client had before, or it is
    the access token of the pair that the store now holds. *)
Theorem client_token_follows_the_store (E : Env) (op : Operation) (s : Session) :
  config (this (snd (call E op s))) = config (this s) /\
  (accessToken (this (snd (call E op s))) = accessToken (this s) \/
   exists pair : TokenData,
     keychain (world (snd (call E op s))) = Some pair /\
     accessToken_of pair = accessToken (this (snd (call E op s)))).
Proof.
  destruct (request_of op) as [a|] eqn:Hop.
  - rewrite (call_request_of _ _ _ _ Hop). cbn [snd].
    apply request_keeps_client_in_step.
  - rewrite (call_local _ _ _ Hop). cbn [snd]. auto.
Qed.

(** X19. One call of any operation sends at most two REST requests, runs
    the refresh protocol at most once, and within it calls the token
    endpoint at most once and writes the secret store at most once, the
    write only after the token request. An operation that issues no
    request leaves the session exactly as it was. *)
Theorem effects_of_a_call_are_bounded (E : Env) (op : Operation) (s : Session) :
  (exists added : list Event,
     trace (world (snd (call E op s))) = (trace (world s) ++ added)%list /\
     (fetch_count added <= 2)%nat /\
     (refresh_count added <= 1)%nat /\
     (token_request_count added <= 1)%nat /\
     (save_count added <= 1)%nat /\
     (token_request_count added <= refresh_count added)%nat /\
     (save_count added <= token_request_count added)%nat) /\
  (request_of op = None -> snd (call E op s) = s).
Proof.
  destruct (request_of op) as [a|] eqn:Hop.
  - split; [| discriminate].
    rewrite (call_request_of _ _ _ _ Hop). cbn [snd]. apply request_events.
  - rewrite (call_local _ _ _ Hop). cbn [snd]. split; [| reflexivity].
    exists []. rewrite app_nil_r. split; [reflexivity |]. cbn. lia.
Qed.

Lemma effects_of_a_call_are_bounded_witness :
  snd (call (scripted [r401] None) (MarkAsUnread []) (fresh_session None)) =
  fresh_session None.
Proof.
  destruct (effects_of_a_call_are_bounded (scripted [r401] None) (MarkAsUnread [])
              (fresh_session None)) as [_ H].
  apply H. reflexivity.
Defined.

Lemma length_append (a b : string) :
  String.length (a ++ b) = (String.length a + String.length b)%nat.
Proof. induction a as [|c a IH]; cbn; [reflexivity | rewrite IH; reflexivity]. Qed.

(** X20. The summary of a formatted article is never empty and never
    longer than 503 characters; it is left out exactly when the item has
    no summary or an empty one. *)
Theorem formatted_summary_is_bounded (item : StreamItem) :
  (forall t : string,
     article_summary (formatArticle item) = Some t ->
     t <> EmptyString /\ (String.length t <= 503)%nat) /\
  (article_summary (formatArticle item) = None <->
   summary item = None \/
   exists sm : ItemSummary, summary item = Some sm /\ content sm = EmptyString).
Proof.
  cbn [formatArticle article_summary].
  destruct (summary item) as [sm|]; [| split; [discriminate | split; auto]].
  unfold truthy_string.
  destruct (String.eqb_spec (content sm) EmptyString) as [Hempty | Hfull]; cbn [negb].
  - split; [discriminate |]. split; [| reflexivity]. intros _. right. eauto.
  - destruct (500 <? Z.of_nat (String.length (content sm))) eqn:Hlong.
    + split.
      * intros t Ht. inversion Ht; subst; clear Ht. split.
        -- destruct (substring 0 500 (content sm)); discriminate.
        -- rewrite length_append, substring_0_length; [cbn; lia | lia].
      * split; [discriminate |].
        intros [H | [sm' [H Hc]]]; [discriminate |].
        inversion H; subst. contradiction.
    + split.
      * intros t Ht. inversion Ht; subst; clear Ht. split; [exact Hfull | lia].
      * split; [discriminate |].
        intros [H | [sm' [H Hc]]]; [discriminate |].
        inversion H; subst. contradiction.
Qed.

Lemma formatted_summary_is_bounded_witness :
  (String.length (substring 0 500 (letters 600) ++ "...") <= 503)%nat.
Proof.
  destruct (formatted_summary_is_bounded (example_item [] (Some (letters 600))))
    as [H _].
  destruct (H (substring 0 500 (letters 600) ++ "...")) as [_ Hlen].
  - vm_compute. reflexivity.
  - exact Hlen.
Defined.



(** X22. With an empty id list and a stream id, [mark_as_read] has the
    client mark the whole stream as read, by one request to
    [/mark-all-as-read] for that stream with no cutoff timestamp, while
    its reply says that 0 items were marked. *)
Theorem empty_list_marks_the_whole_stream (E : Env) (st st1 : ServerState)
    (c : InoreaderClient) (streamId : string) (p : Payload) (s' : Session) :
  streamId <> EmptyString ->
  getClient E st = (Ok c, st1) ->
  request_with E (mark_stream_args streamId) (mkSession c (server_world st1)) = (Ok p, s') ->
  mark_as_read E (Some []) (Some streamId) st =
    (Reply (mkToolResult
              (JObject [("success", JBool true);
                        ("message", JString "Marked 0 items as read")])
              false),
     mkServerState (Some (this s')) (world s')) /\
  exists l : list Event,
    trace (world s') =
    (trace (server_world st1) ++
     EvFetch (attempt (mark_stream_args streamId) (mkSession c (server_world st1))) :: l)%list.
Proof.
  intros Hsid Hc Hreq. split.
  - unfold mark_as_read, handler. cbn [andb].
    cbv beta iota zeta delta [bind ret on_client markAsRead void]. rewrite Hc.
    cbn [truthy nullish List.length Z.of_nat Z.ltb Z.compare negb andb].
    unfold truthy_string. apply String.eqb_neq in Hsid. rewrite Hsid. cbn [negb].
    unfold request_with, mark_stream_args in Hreq.
    cbn [arg_method arg_endpoint arg_params arg_body] in Hreq.
    rewrite Hreq. reflexivity.
  - destruct (request_trace E (mark_stream_args streamId) (mkSession c (server_world st1)))
      as [l [Htr _]].
    rewrite Hreq in Htr. cbn [snd world] in Htr. exists l. exact Htr.
Qed.

Lemma empty_list_marks_the_whole_stream_witness :
  mark_as_read (scripted [r200_text] None) (Some []) (Some "feed/1") server_ready =
  (Reply (mkToolResult
            (JObject [("success", JBool true);
                      ("message", JString "Marked 0 items as read")])
            false),
   mkServerState
     (Some (this (snd (request_with (scripted [r200_text] None) (mark_stream_args "feed/1")
                         (mkSession (new_InoreaderClient example_config (Some "A1"))
                            (server_world server_ready))))))
     (world (snd (request_with (scripted [r200_text] None) (mark_stream_args "feed/1")
                    (mkSession (new_InoreaderClient example_config (Some "A1"))
                       (server_world server_ready)))))).
Proof.
  assert (Hne : "feed/1" <> EmptyString) by discriminate.
  assert (Hreq : request_with (scripted [r200_text] None) (mark_stream_args "feed/1")
                   (mkSession (new_InoreaderClient example_config (Some "A1"))
                      (server_world server_ready)) =
                 (Ok (TextBody "OK"),
                  snd (request_with (scripted [r200_text] None) (mark_stream_args "feed/1")
                         (mkSession (new_InoreaderClient example_config (Some "A1"))
                            (server_world server_ready)))))
    by (vm_compute; reflexivity).
  destruct (empty_list_marks_the_whole_stream (scripted [r200_text] None) server_ready
              server_ready (new_InoreaderClient example_config (Some "A1")) "feed/1"
              (TextBody "OK") _ Hne eq_refl Hreq) as [H _].
  exact H.
Defined.



Lemma id_fields_of_ids (k v : string) (ids : list string) :
  (k =? "i")%string = false ->
  id_fields ((k, v) :: map (fun id => ("i", id)) ids) = ids.
Proof.
  intro Hk. unfold id_fields. cbn [filter fst]. rewrite Hk.
  induction ids as [|id ids IH]; cbn; [reflexivity | rewrite IH; reflexivity].
Qed.

(** X24. Marking a non-empty list of ids as read and marking it as
    unread send the same form to [/edit-tag], with one [i] field per id,
    in order and with repeats kept, except that the first adds the read
    state (field [a]) and the second removes it (field [r]). *)
Theorem read_and_unread_send_every_id (ids : list string) :
  ids <> [] ->
  forall (streamId : option string) (timestamp : option Z),
  exists read unread : RequestArgs,
    request_of (MarkAsRead (Some ids) streamId timestamp) = Some read /\
    request_of (MarkAsUnread ids) = Some unread /\
    arg_method read = "POST" /\ arg_method unread = "POST" /\
    arg_endpoint read = "/edit-tag" /\ arg_endpoint unread = "/edit-tag" /\
    arg_params read = None /\ arg_params unread = None /\
    id_fields (body_fields read) = ids /\
    id_fields (body_fields unread) = ids /\
    params_lookup "a" (body_fields read) = Some STATE_READ /\
    params_lookup "r" (body_fields read) = None /\
    params_lookup "r" (body_fields unread) = Some STATE_READ /\
    params_lookup "a" (body_fields unread) = None.
Proof.
  intros Hne streamId timestamp.
  assert (Hpos : (0 <? Z.of_nat (List.length ids)) = true).
  { destruct ids; [contradiction | apply Z.ltb_lt; cbn [List.length]; lia]. }
  assert (Hnz : (Z.of_nat (List.length ids) =? 0) = false).
  { apply Z.ltb_lt in Hpos. lia. }
  assert (Hnone : forall (l : list string) (k : string),
            (k =? "i")%string = false ->
            params_lookup k (map (fun id => ("i", id)) l) = None).
  { intros l k Hk. induction l as [|id rest IH]; [reflexivity |].
    cbn. rewrite Hk. exact IH. }
  cbn [request_of]. rewrite Hpos, Hnz. cbn [nullish].
  rewrite !append_ids_map.
  eexists; eexists. split; [reflexivity |]. split; [reflexivity |].
  cbn [arg_method arg_endpoint arg_params arg_body body_fields encode_body app
         params_append].
  repeat split; try reflexivity.
  - apply id_fields_of_ids. reflexivity.
  - apply id_fields_of_ids. reflexivity.
  - cbn. apply Hnone. reflexivity.
  - cbn. apply Hnone. reflexivity.
Qed.

Lemma read_and_unread_send_every_id_witness :
  exists read unread : RequestArgs,
    request_of (MarkAsRead (Some ["x"; "y"; "x"]) None None) = Some read /\
    request_of (MarkAsUnread ["x"; "y"; "x"]) = Some unread /\
    id_fields (body_fields read) = ["x"; "y"; "x"] /\
    id_fields (body_fields unread) = ["x"; "y"; "x"].
Proof.
  assert (Hne : ["x"; "y"; "x"] <> @nil string) by discriminate.
  destruct (read_and_unread_send_every_id ["x"; "y"; "x"] Hne None None)
    as [read [unread [H1 [H2 [_ [_ [_ [_ [_ [_ [H3 [H4 _]]]]]]]]]]]].
  exists read, unread. auto.
Defined.

(** X25. For [editSubscription] an empty string is an option that was
    not supplied: with a title and no non-empty folder the edit is sent
    as a rename only, even when both folders are given as the same empty
    string. With two different non-empty folders the edit is sent with
    both labels, each prefixed and URI-encoded. *)
Theorem empty_folders_are_not_supplied (subscriptionId : string) (options : EditOptions) :
  (truthy (title options) = true ->
   truthy (addToFolder options) = false ->
   truthy (removeFromFolder options) = false ->
   request_of (EditSubscription subscriptionId options) =
     Some (mkRequestArgs "POST" "/subscription/edit" None
             (Some (BodyParams
                      [("ac", "edit"); ("s", subscriptionId);
                       ("t", nullish (title options) EmptyString)])))) /\
  (forall f g : string,
     addToFolder options = Some f ->
     removeFromFolder options = Some g ->
     f <> EmptyString -> g <> EmptyString -> f <> g ->
     exists a : RequestArgs,
       request_of (EditSubscription subscriptionId options) = Some a /\
       arg_endpoint a = "/subscription/edit" /\
       params_lookup "a" (body_fields a) = Some ("user/-/label/" ++ encodeURIComponent f) /\
       params_lookup "r" (body_fields a) = Some ("user/-/label/" ++ encodeURIComponent g)).
Proof.
  split.
  - intros Ht Ha Hr. cbn [request_of]. unfold edit_body.
    rewrite Ht, Ha, Hr. reflexivity.
  - intros f g Ha Hr Hf Hg Hfg. cbn [request_of]. unfold edit_body.
    rewrite Ha, Hr. cbn [truthy nullish]. unfold truthy_string.
    apply String.eqb_neq in Hf, Hg, Hfg. rewrite Hf, Hg, Hfg.
    cbn [negb andb]. rewrite !andb_false_r. cbn [andb].
    eexists. split; [reflexivity |].
    cbn [arg_endpoint arg_body body_fields encode_body].
    destruct (truthy (title options)); repeat split; reflexivity.
Qed.

Lemma empty_folders_are_not_supplied_witness :
  request_of (EditSubscription "feed/1"
                (mkEditOptions (Some "News") (Some EmptyString) (Some EmptyString))) =
  Some (mkRequestArgs "POST" "/subscription/edit" None
          (Some (BodyParams [("ac", "edit"); ("s", "feed/1"); ("t", "News")]))).
Proof.
  destruct (empty_folders_are_not_supplied "feed/1"
              (mkEditOptions (Some "News") (Some EmptyString) (Some EmptyString)))
    as [H _].
  apply H; reflexivity.
Defined.

(** X26. Every request that an operation sends is a GET without a body
    or a POST, and it carries the form content type exactly when it has
    a body; [addSubscription] is the one POST that has none, its
    arguments travelling in the query string. *)
Theorem bodies_and_content_types (op : Operation) (a : RequestArgs) (s : Session) :
  request_of op = Some a ->
  (arg_method a = "GET" \/ arg_method a = "POST") /\
  (arg_method a = "GET" -> req_body (attempt a s) = None) /\
  (req_body (attempt a s) = None <->
   params_lookup "Content-Type" (req_headers (attempt a s)) = None) /\
  (req_body (attempt a s) <> None ->
   params_lookup "Content-Type" (req_headers (attempt a s)) =
     Some "application/x-www-form-urlencoded") /\
  (arg_method a = "POST" ->
   req_body (attempt a s) = None ->
   exists feedUrl title, op = AddSubscription feedUrl title).
Proof.
  intro Hop.
  destruct op; cbn [request_of] in Hop; split_conditions Hop; try discriminate;
    inversion Hop; subst; clear Hop;
    unfold attempt, build_request;
    cbn [arg_method arg_endpoint arg_params arg_body String.eqb Ascii.eqb Bool.eqb
           req_body req_headers params_set params_lookup];
    (split; [auto |]);
    (split; [intro H; try reflexivity; discriminate H |]);
    (split; [split; intro H; try reflexivity; discriminate H |]);
    (split; [intro H; try reflexivity; contradiction H; reflexivity |]);
    intros Hm Hb; try discriminate Hm; try discriminate Hb; eauto.
Qed.

Lemma bodies_and_content_types_witness :
  params_lookup "Content-Type"
    (req_headers (attempt star_args (fresh_session None))) =
  Some "application/x-www-form-urlencoded".
Proof.
  destruct (bodies_and_content_types (AddStar "item-1") star_args (fresh_session None)
              eq_refl) as [_ [_ [_ [H _]]]].
  apply H. discriminate.
Defined.



(** X28. When the client cannot be created, every tool call fails with
    an error reply that carries the message of the failure, also a call
    that would have had nothing to do; no client is kept, so the next
    call tries to create it again. *)
Theorem no_client_fails_every_tool (E : Env) (st st1 : ServerState) (e : Exn) :
  getClient E st = (Throw e, st1) ->
  client st1 = None /\
  (forall item_ids : list string,
     mark_as_unread E item_ids st = (Reply (handleToolError e), st1)) /\
  (forall (item_ids : list string) (stream_id : option string),
     mark_as_read E (Some item_ids) stream_id st = (Reply (handleToolError e), st1)) /\
  (forall (stream_id : option string) (raw : option Z) (unread_only : option bool)
          (c : Z),
     count_schema raw = Some c ->
     get_articles E stream_id raw unread_only st = (Reply (handleToolError e), st1)) /\
  isError (handleToolError e) = true /\
  value (handleToolError e) = JObject [("error", JString (message e))].
Proof.
  intro Hc.
  assert (Hslot : client st1 = None).
  { revert Hc. unfold getClient. destruct (client st) as [c0|]; [discriminate |].
    destruct (createClient E (server_world st)) as [[c1|e1] w];
      intro H; inversion H; subst; reflexivity. }
  split; [exact Hslot |]. split; [| split; [| split; [| split; reflexivity]]].
  - intro item_ids. unfold mark_as_unread, handler.
    cbv beta iota zeta delta [bind]. rewrite Hc. reflexivity.
  - intros item_ids stream_id. unfold mark_as_read, handler. cbn [andb].
    cbv beta iota zeta delta [bind]. rewrite Hc. reflexivity.
  - intros stream_id raw unread_only c Hcount. unfold get_articles, handler.
    rewrite Hcount. cbv beta iota zeta delta [bind]. rewrite Hc. reflexivity.
Qed.

Lemma no_client_fails_every_tool_witness :
  exists e : Exn,
    mark_as_unread (scripted [] None) [] (server_empty None) =
      (Reply (handleToolError e),
       snd (getClient (scripted [] None) (server_empty None))) /\
    prefix "Not authenticated." (message e) = true.
Proof.
  assert (Hc : getClient (scripted [] None) (server_empty None) =
               (Throw (mkExn ClsError
                         "Not authenticated. Run 'inoreader-mcp auth login' first, or set INOREADER_ACCESS_TOKEN environment variable."),
                snd (getClient (scripted [] None) (server_empty None))))
    by (vm_compute; reflexivity).
  destruct (no_client_fails_every_tool (scripted [] None) (server_empty None) _ _ Hc)
    as [_ [H _]].
  eexists. split; [apply H | reflexivity].
Defined.
